(** * utility/md5_checker.cpp: a brute-force search for strings whose MD5
      digest contains a given byte pattern.

    The development embeds the three functions of the program,
    [generate_string], [search_md5_containing] and [main], together with the
    library routines they call ([rand], [strtoul], [tolower],
    [basic_string::find], OpenSSL's [MD5]), and states the properties of the
    search loop over that embedding.

    Conventions.  A byte ([unsigned char]) is a [Z] in [0, 256); a
    [basic_string<unsigned char>] is a [list Z]; a [size_t] is a [Z] reduced
    modulo [2^64], an [int] a [Z] reduced to [[-2^31, 2^31)]. *)

From Stdlib Require Import ZArith Lia String Ascii Sorted.
From stdpp Require Import base tactics option list sorting.

Local Open Scope Z_scope.

(** ** Machine integers *)

Definition SIZE_MAX : Z := 2 ^ 64 - 1.

(** Conversion to [size_t] (and to [unsigned long], which has the same width
    on the LP64 targets the program is built for). *)
Definition to_size_t (x : Z) : Z := x mod 2 ^ 64.

(** Conversion to [int]: reduction modulo [2^32] into [[-2^31, 2^31)]. *)
Definition to_int (x : Z) : Z := (x + 2 ^ 31) mod 2 ^ 32 - 2 ^ 31.

(** ** Bytes and C strings *)

Fixpoint bytes (s : string) : list Z :=
  match s with
  | EmptyString => []
  | String c r => Z.of_nat (nat_of_ascii c) :: bytes r
  end.

(** What a [char const*] or [c_str()] denotes when it is read as a C string:
    the bytes before the first NUL. *)
Fixpoint c_str (l : list Z) : list Z :=
  match l with
  | [] => []
  | b :: r => if b =? 0 then [] else b :: c_str r
  end.

Definition strlen (l : list Z) : nat := length (c_str l).

(** [tolower] in the C locale, followed by the cast to [unsigned char]. *)
Definition tolower (b : Z) : Z :=
  if (65 <=? b) && (b <=? 90) then b + 32 else b.

(** ** The MD5 message digest (RFC 1321), as computed by OpenSSL's [MD5] *)

Module RFC1321.

Definition MD5_DIGEST_LENGTH : nat := 16.

Definition word (x : Z) : Z := x mod 2 ^ 32.

Definition rotate_left (x n : Z) : Z :=
  word (Z.lor (Z.shiftl x n) (Z.shiftr x (32 - n))).

Definition not32 (x : Z) : Z := word (Z.lnot x).

Definition F (x y z : Z) : Z := Z.lor (Z.land x y) (Z.land (not32 x) z).
Definition G (x y z : Z) : Z := Z.lor (Z.land x z) (Z.land y (not32 z)).
Definition H (x y z : Z) : Z := Z.lxor x (Z.lxor y z).
Definition I (x y z : Z) : Z := Z.lxor y (Z.lor x (not32 z)).

(** [T[i] = floor (2^32 * abs (sin (i + 1)))]. *)
Definition T : list Z :=
  [ 0xd76aa478; 0xe8c7b756; 0x242070db; 0xc1bdceee;
    0xf57c0faf; 0x4787c62a; 0xa8304613; 0xfd469501;
    0x698098d8; 0x8b44f7af; 0xffff5bb1; 0x895cd7be;
    0x6b901122; 0xfd987193; 0xa679438e; 0x49b40821;
    0xf61e2562; 0xc040b340; 0x265e5a51; 0xe9b6c7aa;
    0xd62f105d; 0x02441453; 0xd8a1e681; 0xe7d3fbc8;
    0x21e1cde6; 0xc33707d6; 0xf4d50d87; 0x455a14ed;
    0xa9e3e905; 0xfcefa3f8; 0x676f02d9; 0x8d2a4c8a;
    0xfffa3942; 0x8771f681; 0x6d9d6122; 0xfde5380c;
    0xa4beea44; 0x4bdecfa9; 0xf6bb4b60; 0xbebfbc70;
    0x289b7ec6; 0xeaa127fa; 0xd4ef3085; 0x04881d05;
    0xd9d4d039; 0xe6db99e5; 0x1fa27cf8; 0xc4ac5665;
    0xf4292244; 0x432aff97; 0xab9423a7; 0xfc93a039;
    0x655b59c3; 0x8f0ccc92; 0xffeff47d; 0x85845dd1;
    0x6fa87e4f; 0xfe2ce6e0; 0xa3014314; 0x4e0811a1;
    0xf7537e82; 0xbd3af235; 0x2ad7d2bb; 0xeb86d391 ].

(** Per-round shift amounts. *)
Definition shifts : list Z :=
  [ 7; 12; 17; 22; 7; 12; 17; 22; 7; 12; 17; 22; 7; 12; 17; 22;
    5;  9; 14; 20; 5;  9; 14; 20; 5;  9; 14; 20; 5;  9; 14; 20;
    4; 11; 16; 23; 4; 11; 16; 23; 4; 11; 16; 23; 4; 11; 16; 23;
    6; 10; 15; 21; 6; 10; 15; 21; 6; 10; 15; 21; 6; 10; 15; 21 ].

Record regs := Regs { rA : Z; rB : Z; rC : Z; rD : Z }.

Definition initial : regs :=
  Regs 0x67452301 0xefcdab89 0x98badcfe 0x10325476.

(** Little-endian encoding and decoding. *)
Fixpoint le_split (n : nat) (x : Z) : list Z :=
  match n with
  | O => []
  | S m => x mod 256 :: le_split m (x / 256)
  end.

Fixpoint le_combine (l : list Z) : Z :=
  match l with
  | [] => 0
  | b :: r => b + 256 * le_combine r
  end.

(** The [g]-th 32-bit word of a 64-byte block. *)
Definition block_word (blk : list Z) (g : nat) : Z :=
  le_combine (take 4 (drop (4 * g) blk)).

(** One of the 64 operations on a block. *)
Definition operation (blk : list Z) (r : regs) (i : nat) : regs :=
  let '(f, g) :=
    match (i / 16)%nat with
    | 0%nat => (F (rB r) (rC r) (rD r), i)
    | 1%nat => (G (rB r) (rC r) (rD r), (5 * i + 1) mod 16)%nat
    | 2%nat => (H (rB r) (rC r) (rD r), (3 * i + 5) mod 16)%nat
    | _ => (I (rB r) (rC r) (rD r), (7 * i) mod 16)%nat
    end in
  let sum := word (rA r + f + nth i T 0 + block_word blk g) in
  Regs (rD r) (word (rB r + rotate_left sum (nth i shifts 0))) (rB r) (rC r).

Definition process_block (r : regs) (blk : list Z) : regs :=
  let r' := fold_left (operation blk) (seq 0 64) r in
  Regs (word (rA r + rA r')) (word (rB r + rB r'))
       (word (rC r + rC r')) (word (rD r + rD r')).

(** Padding: a [0x80] byte, zeros up to 56 modulo 64, the bit length on 64
    bits. *)
Definition pad (msg : list Z) : list Z :=
  let len := Z.of_nat (length msg) in
  msg ++ [128] ++ replicate (Z.to_nat ((55 - len) mod 64)) 0
      ++ le_split 8 ((8 * len) mod 2 ^ 64).

Definition blocks (l : list Z) : list (list Z) :=
  map (fun j => take 64 (drop (64 * j) l)) (seq 0 (length l / 64)).

Definition output (r : regs) : list Z :=
  le_split 4 (rA r) ++ le_split 4 (rB r) ++ le_split 4 (rC r)
    ++ le_split 4 (rD r).

Definition digest (msg : list Z) : list Z :=
  output (fold_left process_block (blocks (pad msg)) initial).

End RFC1321.

(** [MD5(d, n, md)] writes the digest of the [n] bytes at [d] to [md]; the
    function below is the digest it writes. *)
Definition MD5 (d : list Z) : list Z := RFC1321.digest d.

(** ** What the program does not determine

    [rand] is never seeded by the program and its sequence is the C
    library's: [rand_value w n] is what the [n]-th call returns.
    [generate_string] also reads the static array [charset] through an index
    that can leave the array: [outside_charset w off] is the byte the memory
    holds at offset [off] from the start of [charset], for offsets outside
    the array. *)

Record world := World {
  rand_value : nat -> Z;
  outside_charset : Z -> Z
}.

Definition constant_world (r b : Z) : world :=
  World (fun _ => r) (fun _ => b).

(** The world in which [rand] returns the values of [l], then 1 for ever. *)
Definition scripted_world (l : list Z) (b : Z) : world :=
  World (fun n => nth n l 1) (fun _ => b).

(** ** [generate_string] *)

(** [static char charset[] = "0123456789abcdefghjklmnopqrstuvwxyz"]: 35
    characters (there is no ['i']) and the terminating NUL. *)
Definition charset : list Z :=
  bytes "0123456789abcdefghjklmnopqrstuvwxyz" ++ [0].

Definition charset_characters : list Z :=
  bytes "0123456789abcdefghjklmnopqrstuvwxyz".

Definition sizeof_charset : Z := 36.

(** [rand() % sizeof(charset) - 1]: [%] binds tighter than [-], and the
    arithmetic is done in [size_t]. *)
Definition charset_index (r : Z) : Z :=
  to_size_t (to_size_t r mod sizeof_charset - 1).

(** The offset an index denotes once it is added to a 64-bit pointer. *)
Definition to_ptrdiff (x : Z) : Z := (x + 2 ^ 63) mod 2 ^ 64 - 2 ^ 63.

(** [charset[idx]] *)
Definition charset_read (w : world) (idx : Z) : Z :=
  let off := to_ptrdiff idx in
  if (0 <=? off) && (off <? sizeof_charset)
  then nth (Z.to_nat off) charset 0
  else outside_charset w off.

(** The loop [for (int i = 0; i < size; ++i) result[i] = charset[...]], by
    recursion on the number [n] of iterations that remain; [calls] counts the
    calls of [rand] made so far. *)
Fixpoint fill (w : world) (n i : nat) (result : list Z) (calls : nat)
  : list Z * nat :=
  match n with
  | O => (result, calls)
  | S m =>
      fill w m (S i)
           (<[i := charset_read w (charset_index (rand_value w calls))]> result)
           (S calls)
  end.

(** [generate_string(result, size)].  [result.resize(size)] converts the
    [int] to [size_t]: a negative size becomes a length above [max_size()]
    and [resize] throws [std::length_error], which is the [None] below. *)
Definition generate_string (w : world) (result : list Z) (calls : nat)
    (size : Z) : option (list Z * nat) :=
  if size <? 0 then None
  else
    let n := Z.to_nat size in
    Some (fill w n 0 (resize n 0 result) calls).

(** The character the [c]-th call of [rand] selects. *)
Definition random_char (w : world) (c : nat) : Z :=
  charset_read w (charset_index (rand_value w c)).

(** ** [basic_string::find] *)

Fixpoint starts_with (s pat : list Z) : bool :=
  match pat, s with
  | [], _ => true
  | _ :: _, [] => false
  | p :: pat', c :: s' => (p =? c) && starts_with s' pat'
  end.

(** [s.find(pat)]: the first position at which [pat] occurs in [s]; [None]
    stands for [npos]. *)
Fixpoint find (s pat : list Z) : option nat :=
  if starts_with s pat then Some O
  else match s with
       | [] => None
       | _ :: s' => S <$> find s' pat
       end.

(** ** [search_md5_containing] *)

(** A line written to [std::cout]. *)
Inductive line :=
| At (k : Z)                      (* "At <k>0M" *)
| Found (candidate digest : list Z). (* "<tmp.c_str()> --> <md5.c_str()>" *)

(** What one execution of the loop body did (kept for the statements, the
    program has no such record). *)
Record iteration := Iteration {
  it_index : Z;               (* the value of [i] *)
  it_marker : option Z;       (* the counter printed at line 42, if any *)
  it_candidate : list Z;      (* [tmp] as passed to [MD5] *)
  it_buffer : list Z;         (* [md5] when [find] is called *)
  it_found : option nat       (* the result of [md5.find(pattern)] *)
}.

Record state := State {
  tmp : list Z;
  md5 : list Z;
  k : Z;
  calls : nat;
  out : list line;
  history : list iteration
}.

(** [pattern]: [strlen(substr)] bytes, each the lower case of the byte of
    [substr] at its place.  ([std::transform] runs over [capacity()] bytes,
    which is at least [size()]; what it reads after the terminator of
    [substr] and writes past [size()] is not part of the string, and [find]
    never reads it.) *)
Definition make_pattern (substr : list Z) : list Z :=
  tolower <$> c_str substr.

(** Line 47: [MD5] writes its 16 bytes at the start of the buffer. *)
Definition hash_call (s : state) : state :=
  State (tmp s) (list_inserts 0 (MD5 (tmp s)) (md5 s)) (k s) (calls s)
        (out s) (history s).

(** Lines 41-43: the state after them and the counter printed, if any. *)
Definition progress (i : Z) (s : state) : state * option Z :=
  if i mod 10000000 =? 0 then
    let k' := to_int (k s + 1) in
    (State (tmp s) (md5 s) k' (calls s) (out s ++ [At k']) (history s),
     Some k')
  else (s, None).

(** Lines 41-51, one execution of the loop body. *)
Definition body (w : world) (pattern : list Z) (str_size : Z) (i : Z)
    (s : state) : option state :=
  let '(s1, marker) := progress i s in
  '(candidate, calls') ← generate_string w (tmp s1) (calls s1) str_size;
  let s2 :=
    hash_call (State candidate (md5 s1) (k s1) calls' (out s1) (history s1)) in
  let found := find (md5 s2) pattern in
  let printed :=
    match found with
    | Some _ => [Found (c_str (tmp s2)) (c_str (md5 s2))]
    | None => []
    end in
  Some (State (tmp s2) (md5 s2) (k s2) (calls s2) (out s2 ++ printed)
              (history s2 ++ [Iteration i marker (tmp s2) (md5 s2) found])).

Inductive outcome :=
| Finished (s : state)
| Thrown              (* an exception left the loop *)
| OutOfFuel.

(** [for (size_t i = 1; i < ulimit; ++i) body]. *)
Fixpoint loop (w : world) (pattern : list Z) (str_size ulimit : Z)
    (fuel : nat) (i : Z) (s : state) : outcome :=
  if i <? ulimit then
    match fuel with
    | O => OutOfFuel
    | S fuel' =>
        match body w pattern str_size i s with
        | Some s' =>
            loop w pattern str_size ulimit fuel' (to_size_t (i + 1)) s'
        | None => Thrown
        end
    end
  else Finished s.

Definition initial_state : state :=
  State [] (resize 130 0 []) 0 0 [] [].

Definition search_md5_containing (w : world) (substr : list Z)
    (str_size ulimit : Z) : outcome :=
  loop w (make_pattern substr) str_size ulimit (Z.to_nat ulimit) 1
       initial_state.

(** ** [main] *)

Definition isspace (b : Z) : bool := (b =? 32) || ((9 <=? b) && (b <=? 13)).
Definition isdigit (b : Z) : bool := (48 <=? b) && (b <=? 57).

Fixpoint skip_spaces (l : list Z) : list Z :=
  match l with
  | b :: r => if isspace b then skip_spaces r else l
  | [] => []
  end.

(** The value of the longest prefix of decimal digits, continuing [acc]. *)
Fixpoint digits_value (l : list Z) (acc : Z) : Z :=
  match l with
  | b :: r => if isdigit b then digits_value r (10 * acc + (b - 48)) else acc
  | [] => acc
  end.

(** [strtoul(nptr, NULL, 10)] of the C library: white space is skipped, a
    sign is accepted, the digits that follow are converted; without any
    digit the result is 0, a value above [ULONG_MAX] gives [ULONG_MAX], and
    a minus sign negates the value in [unsigned long]. *)
Definition strtoul (nptr : list Z) : Z :=
  let s := skip_spaces (c_str nptr) in
  let '(negative, s) :=
    match s with
    | b :: r =>
        if b =? 45 then (true, r) else if b =? 43 then (false, r)
        else (false, s)
    | [] => (false, s)
    end in
  let v := digits_value s 0 in
  if SIZE_MAX <? v then SIZE_MAX
  else if negative then to_size_t (- v) else v.

(** Lines 56-59: the [int ulimit] of [main]; [argc] is the length of
    [argv]. *)
Definition main_ulimit (argv : list string) : Z :=
  if 1 <? Z.of_nat (length argv)
  then to_int (strtoul (bytes (nth 1 argv EmptyString)))
  else 100.

(** The bound the search loop receives: the [int] converted to [size_t]. *)
Definition main_bound (argv : list string) : Z :=
  to_size_t (main_ulimit argv).

Definition main (w : world) (argv : list string) : outcome :=
  search_md5_containing w (bytes "'='") 10 (main_bound argv).

(** ** Reading the output and the history *)

Definition progress_counters (o : list line) : list Z :=
  omap (fun l => match l with At c => Some c | Found _ _ => None end) o.

Definition is_match (l : line) : bool :=
  match l with Found _ _ => true | At _ => false end.

Definition match_lines (o : list line) : list line := List.filter is_match o.

(** ** The search loop in closed form

    The [i]-th execution of the loop body is determined by [i], the world and
    the arguments of [search_md5_containing]: [iteration_of] says what it
    does, and the loop leaves the state [Finished] with the history
    [iteration_of <$> seqZ 1 (ulimit - 1)]. *)

Definition candidate_of (w : world) (str_size i : Z) : list Z :=
  random_char w <$> seq (Z.to_nat ((i - 1) * str_size)) (Z.to_nat str_size).

Definition marker (i : Z) : option Z :=
  if i mod 10000000 =? 0 then Some (to_int (i / 10000000)) else None.

Definition buffer_of (candidate : list Z) : list Z :=
  MD5 candidate ++ replicate 114 0.

Definition iteration_of (w : world) (pattern : list Z) (str_size i : Z)
  : iteration :=
  let candidate := candidate_of w str_size i in
  Iteration i (marker i) candidate (buffer_of candidate)
            (find (buffer_of candidate) pattern).

Definition marker_line (e : iteration) : list line :=
  match it_marker e with Some c => [At c] | None => [] end.

Definition match_line (e : iteration) : list line :=
  match it_found e with
  | Some _ => [Found (c_str (it_candidate e)) (c_str (it_buffer e))]
  | None => []
  end.

Definition lines_of (e : iteration) : list line :=
  marker_line e ++ match_line e.

Record loop_invariant (w : world) (pattern : list Z) (str_size i : Z)
    (s : state) : Prop := LoopInvariant {
  inv_history : history s = iteration_of w pattern str_size <$> seqZ 1 (i - 1);
  inv_out : out s = history s ≫= lines_of;
  inv_k : k s = to_int ((i - 1) / 10000000);
  inv_calls : calls s = Z.to_nat ((i - 1) * str_size);
  inv_md5 : exists d, length d = 16%nat /\ md5 s = d ++ replicate 114 0
}.

(** ** The vocabulary of the claims *)

(** A length is defined by the hash algorithm when it is the length of the
    digest or of its rendering in hexadecimal, two characters per byte. *)
Definition algorithm_defined_length (n : nat) : Prop :=
  n = RFC1321.MD5_DIGEST_LENGTH \/ n = (2 * RFC1321.MD5_DIGEST_LENGTH)%nat.

(** A character of the hexadecimal range. *)
Definition is_hex_digit (b : Z) : bool :=
  isdigit b || ((97 <=? b) && (b <=? 102)) || ((65 <=? b) && (b <=? 70)).

(** An argument is a valid unsigned integer when it is a non-empty string of
    decimal digits; [decimal_value] is the number it writes. *)
Definition valid_unsigned (s : list Z) : bool :=
  match s with
  | [] => false
  | _ :: _ => forallb isdigit s
  end.

Definition decimal_value (s : list Z) : Z :=
  fold_left (fun acc b => 10 * acc + (b - 48)) s 0.

(** An argument that does not begin a number for [strtoul]: it is empty, or
    its first byte is neither a digit, nor a sign, nor white space. *)
Definition not_numeric (s : list Z) : bool :=
  match s with
  | [] => true
  | b :: _ => negb (isdigit b || isspace b || (b =? 43) || (b =? 45))
  end.

(** Two states that hold the same candidate and differ in all the rest. *)
Definition state_abc_zeros : state :=
  State (bytes "abc") (replicate 130 0) 0 0 [] [].

Definition state_abc_sevens : state :=
  State (bytes "abc") (replicate 130 7) 5 30 [At 5] [].

(** ** [print_integral_string] *)

(** The decimal digits of [n], the most significant first, in front of
    [acc]: what [operator<<] writes for an unsigned integer.  [fuel] bounds
    the number of digits. *)
Fixpoint decimal_digits (fuel : nat) (n : Z) (acc : list Z) : list Z :=
  match fuel with
  | O => acc
  | S fuel' =>
      let acc' := (48 + n mod 10) :: acc in
      if n <? 10 then acc' else decimal_digits fuel' (n / 10) acc'
  end.

(** An [unsigned long long] has at most 20 decimal digits. *)
Definition print_unsigned (n : Z) : list Z := decimal_digits 20 n [].

(** [print_integral_string(str, newline)]: the bytes written to
    [std::cout].  Each element is converted to [unsigned long long] and
    followed by a space; the whole is between double quotes. *)
Definition print_integral_string (str : list Z) (newline : bool) : list Z :=
  [34] ++ (str ≫= (fun elem => print_unsigned (to_size_t elem) ++ [32]))
       ++ [34] ++ (if newline then [10] else []).

(** Reading the numbers back: runs of digits, each closed by a space, up to
    the first byte that is neither. *)
Fixpoint read_numbers (l : list Z) (acc : Z) : list Z :=
  match l with
  | [] => []
  | b :: r =>
      if isdigit b then read_numbers r (10 * acc + (b - 48))
      else if b =? 32 then acc :: read_numbers r 0
      else []
  end.

(** [toupper] in the C locale. *)
Definition toupper (b : Z) : Z :=
  if (97 <=? b) && (b <=? 122) then b - 32 else b.

(** * Properties *)

(** ** The digest *)

(** The test suite of RFC 1321, appendix A.5. *)
Example MD5_empty :
  MD5 (bytes "") =
  [212; 29; 140; 217; 143; 0; 178; 4; 233; 128; 9; 152; 236; 248; 66; 126].
Proof. vm_compute. reflexivity. Qed.

Example MD5_a :
  MD5 (bytes "a") =
  [12; 193; 117; 185; 192; 241; 182; 168; 49; 195; 153; 226; 105; 119; 38; 97].
Proof. vm_compute. reflexivity. Qed.

Example MD5_abc :
  MD5 (bytes "abc") =
  [144; 1; 80; 152; 60; 210; 79; 176; 214; 150; 63; 125; 40; 225; 127; 114].
Proof. vm_compute. reflexivity. Qed.

Example MD5_message_digest :
  MD5 (bytes "message digest") =
  [249; 107; 105; 125; 124; 183; 147; 141; 82; 90; 47; 49; 170; 241; 97; 208].
Proof. vm_compute. reflexivity. Qed.

Example MD5_two_blocks :
  MD5 (bytes "12345678901234567890123456789012345678901234567890123456789012345678901234567890") =
  [87; 237; 244; 162; 43; 227; 201; 85; 172; 73; 218; 46; 33; 7; 182; 122].
Proof. vm_compute. reflexivity. Qed.


(** ** Machine integers *)

Lemma to_size_t_small x : 0 <= x <= SIZE_MAX -> to_size_t x = x.
Proof. unfold to_size_t, SIZE_MAX. intros. apply Z.mod_small. lia. Qed.

Lemma to_int_small x : - 2 ^ 31 <= x < 2 ^ 31 -> to_int x = x.
Proof. unfold to_int. intros. rewrite Z.mod_small; lia. Qed.

Lemma to_int_succ x : to_int (to_int x + 1) = to_int (x + 1).
Proof.
  unfold to_int.
  replace ((x + 2 ^ 31) mod 2 ^ 32 - 2 ^ 31 + 1 + 2 ^ 31)
    with ((x + 2 ^ 31) mod 2 ^ 32 + 1) by lia.
  replace (x + 1 + 2 ^ 31) with ((x + 2 ^ 31) + 1) by lia.
  now rewrite Zplus_mod_idemp_l.
Qed.

Lemma length_le_split n x : length (RFC1321.le_split n x) = n.
Proof. revert x. induction n as [|n IH]; intros x; simpl; [done|]. by rewrite IH. Qed.

Lemma length_MD5 d : length (MD5 d) = RFC1321.MD5_DIGEST_LENGTH.
Proof.
  unfold MD5, RFC1321.digest, RFC1321.output.
  rewrite !length_app, !length_le_split. reflexivity.
Qed.

(** ** [generate_string] *)

Lemma fill_spec w n : forall i result c,
  (i + n <= length result)%nat ->
  fill w n i result c =
    (take i result ++ (random_char w <$> seq c n) ++ drop (i + n) result,
     (c + n)%nat).
Proof.
  induction n as [|n IH]; intros i result c Hlen; simpl.
  - rewrite !Nat.add_0_r, take_drop. reflexivity.
  - rewrite IH by (rewrite length_insert; lia).
    assert (Hi : (i < length result)%nat) by lia.
    destruct (lookup_lt_is_Some_2 result i Hi) as [x Hx].
    rewrite (take_S_r _ _ (random_char w c)).
    2:{ apply list_lookup_insert_eq. lia. }
    rewrite take_insert_ge by lia.
    rewrite drop_insert_lt by lia.
    rewrite <- app_assoc. simpl.
    rewrite !Nat.add_succ_r. reflexivity.
Qed.

(** [generate_string] in closed form: the old contents of [result] play no
    part, and [rand] is called once per character. *)
Lemma generate_string_spec w result c size :
  0 <= size ->
  generate_string w result c size =
    Some (random_char w <$> seq c (Z.to_nat size), (c + Z.to_nat size)%nat).
Proof.
  intros Hsize. unfold generate_string.
  destruct (size <? 0) eqn:E; [lia|].
  rewrite fill_spec by (rewrite length_resize; lia).
  rewrite take_0, drop_ge by (rewrite length_resize; lia).
  simpl. by rewrite app_nil_r.
Qed.

Lemma generate_string_length w result c size r c' :
  generate_string w result c size = Some (r, c') ->
  Z.of_nat (length r) = size.
Proof.
  destruct (Z.ltb_spec size 0) as [Hneg|Hpos].
  - unfold generate_string. destruct (size <? 0) eqn:E; [done|lia].
  - rewrite generate_string_spec by done. intros [= <- <-].
    rewrite length_fmap, length_seq. lia.
Qed.

(** Every index that stays inside the array and off its terminator selects a
    character of the character set. *)
Lemma charset_in_range :
  forallb (fun j => existsb (Z.eqb (nth j charset 0)) charset_characters)
          (seq 0 35) = true.
Proof. vm_compute. reflexivity. Qed.

Lemma random_char_in_charset w c :
  to_size_t (rand_value w c) mod sizeof_charset <> 0 ->
  In (random_char w c) charset_characters.
Proof.
  intros Hr. unfold random_char, charset_index, charset_read.
  set (m := to_size_t (rand_value w c) mod sizeof_charset) in *.
  assert (Hm : 1 <= m < 36).
  { pose proof (Z.mod_pos_bound (to_size_t (rand_value w c)) sizeof_charset).
    unfold sizeof_charset in *. lia. }
  assert (Hoff : to_ptrdiff (to_size_t (m - 1)) = m - 1).
  { unfold to_ptrdiff, to_size_t.
    rewrite (Z.mod_small (m - 1)) by lia. rewrite Z.mod_small; lia. }
  rewrite Hoff. unfold sizeof_charset.
  destruct ((0 <=? m - 1) && (m - 1 <? 36)) eqn:E; [|lia].
  pose proof charset_in_range as Hall.
  rewrite forallb_forall in Hall.
  specialize (Hall (Z.to_nat (m - 1))).
  rewrite existsb_exists in Hall.
  destruct Hall as [x [Hx Heq]].
  { apply in_seq. lia. }
  apply Z.eqb_eq in Heq. by rewrite Heq.
Qed.

(** When [rand() % 36] is 0 the index is [SIZE_MAX]: the read is at offset
    [-1], before the array. *)
Lemma random_char_outside w c :
  to_size_t (rand_value w c) mod sizeof_charset = 0 ->
  charset_index (rand_value w c) = SIZE_MAX /\
  random_char w c = outside_charset w (-1).
Proof.
  intros Hr. unfold random_char, charset_index. rewrite Hr.
  split; reflexivity.
Qed.

Lemma div_period_multiple i :
  i mod 10000000 = 0 -> (i - 1) / 10000000 + 1 = i / 10000000.
Proof. intros H. Z.div_mod_to_equations. lia. Qed.

Lemma div_period_other i :
  i mod 10000000 <> 0 -> (i - 1) / 10000000 = i / 10000000.
Proof. intros H. Z.div_mod_to_equations. lia. Qed.

Lemma hash_call_md5 s d :
  length d = 16%nat -> md5 s = d ++ replicate 114 0 ->
  md5 (hash_call s) = buffer_of (tmp s).
Proof.
  intros Hd Hmd5. unfold hash_call, buffer_of. cbn [md5]. rewrite Hmd5.
  apply list_inserts_0_r. rewrite length_MD5. by rewrite Hd.
Qed.

(** The hash call writes the digest buffer and nothing else. *)
Lemma hash_call_frame s :
  tmp (hash_call s) = tmp s /\ k (hash_call s) = k s /\
  calls (hash_call s) = calls s /\ out (hash_call s) = out s /\
  history (hash_call s) = history s.
Proof. by unfold hash_call. Qed.

Lemma progress_spec i s :
  k s = to_int ((i - 1) / 10000000) ->
  progress i s =
    (State (tmp s) (md5 s) (to_int (i / 10000000)) (calls s)
           (out s ++ match marker i with Some c => [At c] | None => [] end)
           (history s),
     marker i).
Proof.
  intros Hk. unfold progress, marker.
  destruct (i mod 10000000 =? 0) eqn:E.
  - apply Z.eqb_eq in E.
    rewrite Hk, to_int_succ, div_period_multiple by done. reflexivity.
  - apply Z.eqb_neq in E.
    rewrite <- div_period_other, <- Hk, app_nil_r by done. by destruct s.
Qed.

Lemma body_spec w pattern str_size i s :
  0 <= str_size -> 1 <= i ->
  loop_invariant w pattern str_size i s ->
  exists s', body w pattern str_size i s = Some s' /\
             loop_invariant w pattern str_size (i + 1) s'.
Proof.
  intros Hsize Hi [Hhist Hout Hk Hcalls (d & Hd & Hmd5)].
  unfold body. rewrite (progress_spec i s Hk). cbn [tmp calls md5 k out history].
  rewrite generate_string_spec by done. cbn [mbind option_bind].
  rewrite Hcalls. fold (candidate_of w str_size i).
  set (s1 := State (candidate_of w str_size i) (md5 s) _ _ _ _). set (s2 := hash_call s1).
  destruct (hash_call_frame s1) as (Ft & Fk & Fc & Fo & Fh).
  assert (Hbuf : md5 s2 = buffer_of (candidate_of w str_size i))
    by exact (hash_call_md5 s1 d Hd Hmd5).
  fold s2 in Ft, Fk, Fc, Fo, Fh. cbn [s1 tmp calls md5 k out history] in *.
  rewrite Ft, Fk, Fc, Fo, Fh, Hbuf.
  fold (iteration_of w pattern str_size i).
  eexists. split; [reflexivity|].
  constructor; cbn [tmp calls md5 k out history].
  - replace (i + 1 - 1) with ((i - 1) + 1) by lia.
    rewrite seqZ_app by lia. rewrite fmap_app, Hhist.
    by replace (1 + (i - 1)) with i by lia.
  - rewrite bind_app, <- Hout, <- app_assoc. f_equal.
    cbn. rewrite app_nil_r. unfold match_line.
    cbn [it_marker it_found it_candidate it_buffer iteration_of].
    reflexivity.
  - by replace (i + 1 - 1) with i by lia.
  - replace (i + 1 - 1) with i by lia.
    rewrite <- Z2Nat.inj_add by nia. f_equal. lia.
  - exists (MD5 (candidate_of w str_size i)). split; [apply length_MD5|done].
Qed.

(** The rule for the [for] loop: an invariant that every execution of the
    body carries from [i] to [i + 1] holds, when the loop is left, at the
    bound; and the loop is left, provided the fuel covers the distance to the
    bound. *)
Section LoopRule.
Variable w : world.
Variable pattern : list Z.
Variables str_size ulimit : Z.
Variable Inv : Z -> state -> Prop.

Hypothesis ulimit_size_t : ulimit <= SIZE_MAX.
Hypothesis body_preserves : forall i s,
  1 <= i < ulimit -> Inv i s ->
  exists s', body w pattern str_size i s = Some s' /\ Inv (i + 1) s'.

Lemma loop_rule fuel : forall i s,
  1 <= i -> ulimit - i <= Z.of_nat fuel -> Inv i s ->
  exists s', loop w pattern str_size ulimit fuel i s = Finished s' /\
             Inv (Z.max i ulimit) s'.
Proof.
  induction fuel as [|fuel IH]; intros i s Hi Hfuel HI.
  - simpl. destruct (Z.ltb_spec i ulimit); [lia|].
    exists s. split; [done|]. by rewrite Z.max_l by lia.
  - cbn [loop]. destruct (Z.ltb_spec i ulimit) as [Hlt|Hge].
    + destruct (body_preserves i s) as (s' & -> & HI'); [lia|done|].
      rewrite to_size_t_small by lia.
      destruct (IH (i + 1) s') as (s'' & Hloop & HI''); [lia|lia|done|].
      exists s''. split; [done|].
      by replace (Z.max i ulimit) with (Z.max (i + 1) ulimit) by lia.
    + exists s. split; [done|]. by rewrite Z.max_l by lia.
Qed.
End LoopRule.

Lemma initial_invariant w pattern str_size :
  loop_invariant w pattern str_size 1 initial_state.
Proof.
  constructor; try reflexivity.
  exists (replicate 16 0). split; reflexivity.
Qed.

(** The search loop terminates, and its final state is the one the closed
    form describes. *)
Lemma search_spec w substr str_size ulimit :
  0 <= str_size -> 0 <= ulimit <= SIZE_MAX ->
  exists s,
    search_md5_containing w substr str_size ulimit = Finished s /\
    history s =
      iteration_of w (make_pattern substr) str_size <$> seqZ 1 (ulimit - 1) /\
    out s = history s ≫= lines_of /\
    calls s = Z.to_nat ((ulimit - 1) * str_size) /\
    drop 16 (md5 s) = replicate 114 0.
Proof.
  intros Hsize Hlimit. unfold search_md5_containing.
  destruct (loop_rule w (make_pattern substr) str_size ulimit
              (loop_invariant w (make_pattern substr) str_size))
    with (fuel := Z.to_nat ulimit) (i := 1) (s := initial_state)
    as (s & Hloop & [Hhist Hout Hk Hcalls (d & Hd & Hmd5)]).
  - lia.
  - intros i s [Hi _] HI. by apply body_spec.
  - lia.
  - lia.
  - apply initial_invariant.
  - assert (Hdrop : drop 16 (md5 s) = replicate 114 0).
    { rewrite Hmd5. by apply drop_app_length'. }
    exists s. split; [done|].
    destruct (Z.le_gt_cases 1 ulimit) as [Hpos|Hzero].
    + rewrite Z.max_r in * by lia. auto.
    + rewrite Z.max_l in * by lia.
      replace ulimit with 0 in * by lia.
      split; [exact Hhist|split; [exact Hout|split; [lia|exact Hdrop]]].
Qed.

(** ** What the output holds *)

Lemma progress_counters_lines (l : list iteration) :
  progress_counters (l ≫= lines_of) = omap it_marker l.
Proof.
  unfold progress_counters.
  induction l as [|e l IH]; [done|].
  cbn [mbind list_bind omap list_omap]. rewrite omap_app. fold (l ≫= lines_of).
  rewrite IH. unfold lines_of, marker_line, match_line.
  destruct (it_marker e), (it_found e); reflexivity.
Qed.

Lemma match_lines_lines (l : list iteration) :
  match_lines (l ≫= lines_of) = l ≫= match_line.
Proof.
  unfold match_lines.
  induction l as [|e l IH]; [done|].
  cbn [mbind list_bind]. rewrite List.filter_app. fold (l ≫= lines_of).
  rewrite IH. unfold lines_of, marker_line, match_line.
  destruct (it_marker e), (it_found e); reflexivity.
Qed.

Lemma omap_marker_iterations w pattern str_size (l : list Z) :
  omap it_marker (iteration_of w pattern str_size <$> l) = omap marker l.
Proof.
  induction l as [|i l IH]; [done|].
  cbn [fmap list_fmap omap list_omap]. fold (omap marker l).
  cbn [it_marker iteration_of]. by rewrite <- IH.
Qed.

(** The counters printed during the first [n] iterations: one for every
    multiple of 10,000,000 up to [n], reduced to an [int]. *)
Lemma omap_marker_seqZ (n : nat) :
  omap marker (seqZ 1 (Z.of_nat n)) =
  to_int <$> seqZ 1 (Z.of_nat n / 10000000).
Proof.
  induction n as [|n IH].
  - reflexivity.
  - rewrite seqZ_S, omap_app, IH. cbn [omap list_omap].
    rewrite Nat2Z.inj_succ. unfold Z.succ.
    replace (1 + Z.of_nat n) with (Z.of_nat n + 1) by lia.
    unfold marker. destruct (Z.eqb_spec ((Z.of_nat n + 1) mod 10000000) 0) as [E|E].
    + pose proof (div_period_multiple (Z.of_nat n + 1) E) as Hdiv.
      replace (Z.of_nat n + 1 - 1) with (Z.of_nat n) in Hdiv by lia.
      rewrite <- Hdiv.
      rewrite seqZ_app, fmap_app by (Z.div_mod_to_equations; lia).
      by rewrite (Z.add_comm 1).
    + pose proof (div_period_other (Z.of_nat n + 1) E) as Hdiv.
      replace (Z.of_nat n + 1 - 1) with (Z.of_nat n) in Hdiv by lia.
      by rewrite <- Hdiv, app_nil_r.
Qed.

Lemma omap_marker_seqZ_Z n :
  omap marker (seqZ 1 n) = to_int <$> seqZ 1 (n / 10000000).
Proof.
  destruct (Z.le_gt_cases 0 n) as [Hn|Hn].
  - rewrite <- (Z2Nat.id n) by done. apply omap_marker_seqZ.
  - rewrite !seqZ_nil; [done| |lia]. Z.div_mod_to_equations. lia.
Qed.

Lemma fmap_to_int_small (l : list Z) :
  Forall (fun x => - 2 ^ 31 <= x < 2 ^ 31) l -> to_int <$> l = l.
Proof.
  induction 1 as [|x l Hx _ IH]; [done|].
  cbn [fmap list_fmap]. fold (to_int <$> l). by rewrite IH, to_int_small.
Qed.

Lemma StronglySorted_seqZ (len : nat) : forall m,
  StronglySorted Z.lt (seqZ m (Z.of_nat len)).
Proof.
  induction len as [|len IH]; intros m.
  - constructor.
  - rewrite seqZ_cons by lia.
    replace (Z.pred (Z.of_nat (S len))) with (Z.of_nat len) by lia.
    constructor; [apply IH|].
    apply Forall_seqZ. lia.
Qed.

Lemma StronglySorted_seqZ_Z m n : StronglySorted Z.lt (seqZ m n).
Proof.
  destruct (Z.le_gt_cases 0 n) as [Hn|Hn].
  - rewrite <- (Z2Nat.id n) by done. apply StronglySorted_seqZ.
  - rewrite seqZ_nil by lia. constructor.
Qed.

(** Every record of the history is the closed form at its index. *)
Lemma history_elem w pattern str_size n (e : iteration) :
  e ∈ iteration_of w pattern str_size <$> seqZ 1 n ->
  exists i, 1 <= i <= n /\ e = iteration_of w pattern str_size i.
Proof.
  intros (i & -> & Hi)%list_elem_of_fmap.
  apply elem_of_seqZ in Hi. exists i. split; [lia|done].
Qed.

Lemma fmap_index_iterations w pattern str_size (l : list Z) :
  it_index <$> (iteration_of w pattern str_size <$> l) = l.
Proof.
  rewrite <- list_fmap_compose. apply list_fmap_id.
Qed.

Lemma length_buffer_of candidate : length (buffer_of candidate) = 130%nat.
Proof.
  unfold buffer_of. by rewrite length_app, length_MD5, length_replicate.
Qed.

(** X16.  [generate_string] stays inside the character set as long as no
    call of [rand] it makes returns a multiple of 36. *)
Lemma generate_string_in_charset w result c size r c' :
  generate_string w result c size = Some (r, c') ->
  (forall j, (c <= j < c + Z.to_nat size)%nat ->
             to_size_t (rand_value w j) mod sizeof_charset <> 0) ->
  Forall (fun x => In x charset_characters) r.
Proof.
  destruct (Z.ltb_spec size 0) as [Hneg|Hpos].
  - unfold generate_string. destruct (size <? 0) eqn:E; [done|lia].
  - rewrite generate_string_spec by done. intros [= <- <-] Hrand.
    apply Forall_fmap, Forall_forall. intros j Hj.
    apply random_char_in_charset, Hrand.
    apply elem_of_seq in Hj. lia.
Qed.

(** * The claims *)

(** C1 (the code departs from the claim).  The claim: after
    [generate_string(result, n)] the string has length [n] and all its
    characters are in the character set.  The length is [n]
    ([generate_string_length]), but the index is [rand() % 36 - 1] and not
    [rand() % 35]: when [rand] returns a multiple of 36 the index is
    [SIZE_MAX] and the character stored is the byte before the array.  Here
    [rand] returns 36 and that byte is 0: the string produced is one NUL,
    which is not in the character set. *)
Theorem generate_string_reads_before_charset :
  charset_index 36 = SIZE_MAX /\
  (forall b,
     generate_string (constant_world 36 b) [] 0 1 = Some ([b], 1%nat)) /\
  generate_string (constant_world 36 0) [] 0 1 = Some ([0], 1%nat) /\
  ~ In 0 charset_characters.
Proof.
  split; [reflexivity|]. split; [reflexivity|]. split; [reflexivity|].
  vm_compute. intuition discriminate.
Qed.

(** C5.  With iteration bound 0 the search loop is left at once, in the
    state it was entered in: nothing is written to the output, neither a
    progress marker nor a match line, and the body is never executed. *)
Theorem bound_zero_emits_nothing w substr str_size :
  exists s,
    search_md5_containing w substr str_size 0 = Finished s /\
    s = initial_state /\
    out s = [] /\
    progress_counters (out s) = [] /\
    match_lines (out s) = [] /\
    history s = [].
Proof. exists initial_state. repeat split. Qed.

(** C9.  For every bound [b >= 1] the loop body is executed exactly [b - 1]
    times, for the indices [1 .. b - 1], and [rand] is called [b - 1] times
    the candidate length; with the default bound of [main], 100, that is 99
    executions. *)
Theorem body_runs_bound_minus_one_times w substr str_size b :
  0 <= str_size -> 1 <= b <= SIZE_MAX ->
  (exists s,
     search_md5_containing w substr str_size b = Finished s /\
     Z.of_nat (length (history s)) = b - 1 /\
     it_index <$> history s = seqZ 1 (b - 1) /\
     Z.of_nat (calls s) = (b - 1) * str_size) /\
  (forall prog, main_bound [prog] = 100 /\
     exists s, main w [prog] = Finished s /\ length (history s) = 99%nat).
Proof.
  intros Hsize Hb. split.
  - destruct (search_spec w substr str_size b) as (s & Hs & Hh & _ & Hc & _);
      [done|lia|].
    exists s. split; [done|]. rewrite Hh, fmap_index_iterations.
    rewrite length_fmap, length_seqZ, Hc. repeat split; try lia. nia.
  - intros prog. split; [reflexivity|]. unfold main.
    change (main_bound [prog]) with 100.
    destruct (search_spec w (bytes "'='") 10 100) as (s & Hs & Hh & _);
      [lia|unfold SIZE_MAX; lia|].
    exists s. split; [done|]. by rewrite Hh, length_fmap, length_seqZ.
Qed.

Lemma body_runs_bound_minus_one_times_witness :
  0 <= 10 /\ 1 <= 3 <= SIZE_MAX /\
  exists s,
    search_md5_containing (constant_world 1 0) (bytes "'='") 10 3 = Finished s /\
    Z.of_nat (length (history s)) = 3 - 1.
Proof.
  assert (H1 : 0 <= 10) by lia.
  assert (H2 : 1 <= 3 <= SIZE_MAX) by (unfold SIZE_MAX; lia).
  split; [exact H1|]. split; [exact H2|].
  destruct (body_runs_bound_minus_one_times
              (constant_world 1 0) (bytes "'='") 10 3 H1 H2)
    as [(s & Hs & Hlen & _) _].
  exists s. split; [exact Hs|exact Hlen].
Defined.

(** What the hash call does to the buffer: its first 16 bytes become the
    digest, the others are not touched. *)
Lemma hash_call_drop s : drop 16 (md5 (hash_call s)) = drop 16 (md5 s).
Proof.
  unfold hash_call. cbn [md5]. apply list_eq. intros j.
  rewrite !lookup_drop. apply list_lookup_inserts_ge.
  rewrite length_MD5. unfold RFC1321.MD5_DIGEST_LENGTH. lia.
Qed.

Lemma hash_call_take s :
  (16 <= length (md5 s))%nat -> take 16 (md5 (hash_call s)) = MD5 (tmp s).
Proof.
  intros Hlen. unfold hash_call. cbn [md5].
  rewrite <- (take_drop 16 (md5 s)) at 1.
  rewrite list_inserts_0_r.
  - apply take_app_length'. by rewrite length_MD5.
  - rewrite length_MD5, length_take. unfold RFC1321.MD5_DIGEST_LENGTH. lia.
Qed.

Lemma hash_call_length s : length (md5 (hash_call s)) = length (md5 s).
Proof. unfold hash_call. cbn [md5]. apply length_inserts. Qed.

(** C10.  In every iteration of the search loop the hash call leaves the
    bytes 16 to 129 of the 130-byte buffer as they were, and they are zero:
    each substring test is made on the 16 raw bytes of the digest followed
    by 114 zero bytes. *)
Theorem match_is_on_raw_digest_and_zeros w substr str_size b :
  0 <= str_size -> 0 <= b <= SIZE_MAX ->
  (forall s0, drop 16 (md5 (hash_call s0)) = drop 16 (md5 s0)) /\
  exists s,
    search_md5_containing w substr str_size b = Finished s /\
    drop 16 (md5 s) = replicate 114 0 /\
    forall e, e ∈ history s ->
      length (it_buffer e) = 130%nat /\
      take 16 (it_buffer e) = MD5 (it_candidate e) /\
      drop 16 (it_buffer e) = replicate 114 0 /\
      it_buffer e = MD5 (it_candidate e) ++ replicate 114 0 /\
      it_found e = find (MD5 (it_candidate e) ++ replicate 114 0)
                        (make_pattern substr).
Proof.
  intros Hsize Hb. split; [apply hash_call_drop|].
  destruct (search_spec w substr str_size b) as (s & Hs & Hh & _ & _ & Hd);
    [done|done|].
  exists s. split; [done|]. split; [done|].
  intros e He. rewrite Hh in He.
  apply history_elem in He as (i & Hi & ->).
  cbn [iteration_of it_buffer it_candidate it_found].
  split; [apply length_buffer_of|]. unfold buffer_of.
  split; [apply take_app_length'; by rewrite length_MD5|].
  split; [apply drop_app_length'; by rewrite length_MD5|].
  done.
Qed.

Lemma match_is_on_raw_digest_and_zeros_witness :
  0 <= 10 /\ 0 <= 3 <= SIZE_MAX /\
  exists s,
    search_md5_containing (constant_world 1 0) (bytes "'='") 10 3 = Finished s /\
    drop 16 (md5 s) = replicate 114 0.
Proof.
  assert (H1 : 0 <= 10) by lia.
  assert (H2 : 0 <= 3 <= SIZE_MAX) by (unfold SIZE_MAX; lia).
  split; [exact H1|]. split; [exact H2|].
  destruct (match_is_on_raw_digest_and_zeros
              (constant_world 1 0) (bytes "'='") 10 3 H1 H2)
    as [_ (s & Hs & Hd & _)].
  exists s. split; [exact Hs|exact Hd].
Defined.

(** C8, as stated, fails: the string the substring test reads has 130
    bytes, which is neither the 16 bytes of an MD5 digest nor the 32
    characters of its hexadecimal form. *)
Lemma searched_length_not_algorithm_defined :
  exists s e,
    search_md5_containing (constant_world 1 0) (bytes "'='") 10 2 = Finished s /\
    history s = [e] /\
    it_candidate e = bytes "0000000000" /\
    length (it_buffer e) = 130%nat /\
    ~ algorithm_defined_length (length (it_buffer e)).
Proof.
  eexists. eexists. split; [vm_compute; reflexivity|].
  split; [reflexivity|]. split; [reflexivity|]. split; [reflexivity|].
  unfold algorithm_defined_length. vm_compute. intuition discriminate.
Qed.

(** C8 (amended).  For every candidate, the string the substring test reads
    has 130 bytes, the size the program gives its buffer, whatever the
    candidate; the digest, whose length of 16 bytes the algorithm fixes, is
    its first 16 bytes. *)
Theorem searched_length_is_buffer_size w substr str_size b :
  0 <= str_size -> 0 <= b <= SIZE_MAX ->
  exists s,
    search_md5_containing w substr str_size b = Finished s /\
    forall e, e ∈ history s ->
      length (it_buffer e) = 130%nat /\
      take 16 (it_buffer e) = MD5 (it_candidate e) /\
      length (MD5 (it_candidate e)) = RFC1321.MD5_DIGEST_LENGTH.
Proof.
  intros Hsize Hb.
  destruct (search_spec w substr str_size b) as (s & Hs & Hh & _);
    [done|done|].
  exists s. split; [done|].
  intros e He. rewrite Hh in He.
  apply history_elem in He as (i & Hi & ->).
  cbn [iteration_of it_buffer it_candidate].
  split; [apply length_buffer_of|].
  split; [|apply length_MD5].
  unfold buffer_of. apply take_app_length'. by rewrite length_MD5.
Qed.

Lemma searched_length_is_buffer_size_witness :
  0 <= 10 /\ 0 <= 3 <= SIZE_MAX /\
  exists s,
    search_md5_containing (constant_world 1 0) (bytes "'='") 10 3 = Finished s /\
    forall e, e ∈ history s -> length (it_buffer e) = 130%nat.
Proof.
  assert (H1 : 0 <= 10) by lia.
  assert (H2 : 0 <= 3 <= SIZE_MAX) by (unfold SIZE_MAX; lia).
  split; [exact H1|]. split; [exact H2|].
  destruct (searched_length_is_buffer_size
              (constant_world 1 0) (bytes "'='") 10 3 H1 H2)
    as (s & Hs & Hall).
  exists s. split; [exact Hs|].
  intros e He. exact (proj1 (Hall e He)).
Defined.

(** C7.  The hash call is a function of the bytes it is given: two calls on
    equal candidates write equal digests, whatever else the two states hold
    and whatever the buffers held before; the digest is [MD5] of the
    candidate; and the call changes nothing but the first 16 bytes of the
    buffer. *)
Theorem hash_call_deterministic s1 s2 :
  tmp s1 = tmp s2 ->
  (16 <= length (md5 s1))%nat -> (16 <= length (md5 s2))%nat ->
  take 16 (md5 (hash_call s1)) = take 16 (md5 (hash_call s2)) /\
  take 16 (md5 (hash_call s1)) = MD5 (tmp s1) /\
  drop 16 (md5 (hash_call s1)) = drop 16 (md5 s1) /\
  length (md5 (hash_call s1)) = length (md5 s1) /\
  tmp (hash_call s1) = tmp s1 /\ k (hash_call s1) = k s1 /\
  calls (hash_call s1) = calls s1 /\ out (hash_call s1) = out s1 /\
  history (hash_call s1) = history s1.
Proof.
  intros Htmp Hl1 Hl2.
  rewrite !hash_call_take by done.
  split; [by rewrite Htmp|]. split; [done|].
  split; [apply hash_call_drop|]. split; [apply hash_call_length|].
  apply hash_call_frame.
Qed.

Lemma hash_call_deterministic_witness :
  tmp state_abc_zeros = tmp state_abc_sevens /\
  (16 <= length (md5 state_abc_zeros))%nat /\
  (16 <= length (md5 state_abc_sevens))%nat /\
  take 16 (md5 (hash_call state_abc_zeros)) =
    take 16 (md5 (hash_call state_abc_sevens)).
Proof.
  assert (H1 : tmp state_abc_zeros = tmp state_abc_sevens) by reflexivity.
  assert (H2 : (16 <= length (md5 state_abc_zeros))%nat) by (vm_compute; lia).
  assert (H3 : (16 <= length (md5 state_abc_sevens))%nat) by (vm_compute; lia).
  split; [exact H1|]. split; [exact H2|]. split; [exact H3|].
  exact (proj1 (hash_call_deterministic _ _ H1 H2 H3)).
Defined.

(** Within a run, two iterations that hash equal candidates test equal
    buffers and find the pattern at the same place. *)
Lemma equal_candidates_equal_buffers w pattern str_size n (e1 e2 : iteration) :
  e1 ∈ iteration_of w pattern str_size <$> seqZ 1 n ->
  e2 ∈ iteration_of w pattern str_size <$> seqZ 1 n ->
  it_candidate e1 = it_candidate e2 ->
  it_buffer e1 = it_buffer e2 /\ it_found e1 = it_found e2.
Proof.
  intros (i1 & _ & ->)%history_elem (i2 & _ & ->)%history_elem.
  cbn [iteration_of it_candidate it_buffer it_found]. by intros ->.
Qed.

(** What follows an element of [seqZ 1 n] is the rest of the sequence. *)
Lemma seqZ_after (l1 l2 : list Z) x n :
  l1 ++ x :: l2 = seqZ 1 n -> 1 <= x <= n /\ l2 = seqZ (x + 1) (n - x).
Proof.
  intros Heq.
  assert (Hlen : Z.of_nat (length l1) + 1 + Z.of_nat (length l2) = n).
  { apply (f_equal length) in Heq.
    rewrite length_app, length_seqZ in Heq. cbn [length] in Heq.
    destruct (Z.le_gt_cases 0 n); lia. }
  set (p := Z.of_nat (length l1)) in *.
  replace n with (p + (n - p)) in Heq by lia.
  rewrite seqZ_app in Heq by lia.
  apply app_inj_1 in Heq as [_ Heq].
  2:{ rewrite length_seqZ. unfold p. lia. }
  rewrite seqZ_cons in Heq by lia.
  injection Heq as -> ->.
  split; [lia|]. f_equal; lia.
Qed.

(** C6.  The loop never stops on a match.  For every bound, the searches for
    two patterns over the same world, whatever either finds, execute the body
    for the same indices [1 .. b - 1] and hash the same candidates; and an
    iteration that finds the pattern is followed by the iterations of all
    the indices that remain below the bound. *)
Theorem no_early_termination_on_match w substr substr' str_size b :
  0 <= str_size -> 0 <= b <= SIZE_MAX ->
  exists s s',
    search_md5_containing w substr str_size b = Finished s /\
    search_md5_containing w substr' str_size b = Finished s' /\
    it_index <$> history s = seqZ 1 (b - 1) /\
    length (history s) = length (history s') /\
    it_candidate <$> history s = it_candidate <$> history s' /\
    forall before e after,
      history s = before ++ e :: after -> is_Some (it_found e) ->
      it_index <$> after = seqZ (it_index e + 1) (b - 1 - it_index e).
Proof.
  intros Hsize Hb.
  destruct (search_spec w substr str_size b) as (s & Hs & Hh & _);
    [done|done|].
  destruct (search_spec w substr' str_size b) as (s' & Hs' & Hh' & _);
    [done|done|].
  exists s, s'. split; [done|]. split; [done|].
  assert (Hidx : it_index <$> history s = seqZ 1 (b - 1))
    by (by rewrite Hh, fmap_index_iterations).
  split; [done|].
  split; [by rewrite Hh, Hh', !length_fmap|].
  split.
  - rewrite Hh, Hh', <- !list_fmap_compose. reflexivity.
  - intros before e after Hsplit _.
    rewrite Hsplit, fmap_app, fmap_cons in Hidx.
    by apply seqZ_after in Hidx as [_ ->].
Qed.

Lemma no_early_termination_on_match_witness :
  0 <= 10 /\ 0 <= 3 <= SIZE_MAX /\
  exists s s',
    search_md5_containing (constant_world 1 0) (bytes "'='") 10 3
      = Finished s /\
    search_md5_containing (constant_world 1 0) [241; 183] 10 3
      = Finished s' /\
    length (history s) = length (history s').
Proof.
  assert (H1 : 0 <= 10) by lia.
  assert (H2 : 0 <= 3 <= SIZE_MAX) by (unfold SIZE_MAX; lia).
  split; [exact H1|]. split; [exact H2|].
  destruct (no_early_termination_on_match
              (constant_world 1 0) (bytes "'='") [241; 183] 10 3 H1 H2)
    as (s & s' & Hs & Hs' & _ & Hlen & _).
  exists s, s'. split; [exact Hs|]. split; [exact Hs'|exact Hlen].
Defined.

(** A negative candidate length makes the first execution of the body throw. *)
Example negative_length_throws :
  search_md5_containing (constant_world 1 0) (bytes "'='") (-1) 2 = Thrown.
Proof. reflexivity. Qed.

(** The search for the two leading bytes of the digest of "0000000000" finds
    them in both of its iterations and runs both. *)
Example search_continues_after_match :
  exists s,
    search_md5_containing (constant_world 1 0) [241; 183] 10 3 = Finished s /\
    it_found <$> history s = [Some 0%nat; Some 0%nat] /\
    length (match_lines (out s)) = 2%nat.
Proof. eexists. split; [vm_compute; reflexivity|]. split; reflexivity. Qed.

(** ** Match lines *)

Lemma bind_match_line_nil (l : list iteration) :
  l ≫= match_line = [] <-> forall e, e ∈ l -> it_found e = None.
Proof.
  induction l as [|e l IH].
  - split; [|done]. intros _ e He. by apply elem_of_nil in He.
  - cbn [mbind list_bind]. fold (l ≫= match_line).
    rewrite app_nil, IH. unfold match_line. split.
    + intros [He Hl] e' [Heq|He']%elem_of_cons; [subst e'|by apply Hl].
      by destruct (it_found e).
    + intros Hall. split.
      * rewrite (Hall e); [done|]. apply elem_of_cons. by left.
      * intros e' He'. apply Hall, elem_of_cons. by right.
Qed.

(** C3, as stated, fails.  The pattern of [main], ['='], has no character in
    the hexadecimal range, and the default bound is 100; when [rand] makes
    the first candidate "000000192c", whose digest is
    [a1 52 27 3d 27 8f ...], the bytes [27 3d 27] are the pattern and a match
    line is printed. *)
Lemma non_hex_pattern_matches :
  existsb is_hex_digit (make_pattern (bytes "'='")) = false /\
  main_bound ["md5_checker"%string] = 100 /\
  exists s,
    main (scripted_world [1; 1; 1; 1; 1; 1; 2; 10; 3; 13] 0)
         ["md5_checker"%string] = Finished s /\
    match_lines (out s) =
      [Found (bytes "000000192c")
             [161; 82; 39; 61; 39; 143; 151; 159; 17; 88; 132; 51; 167; 168;
              165; 32]].
Proof.
  split; [reflexivity|]. split; [reflexivity|].
  eexists. split; [vm_compute; reflexivity|]. reflexivity.
Qed.

(** C3 (amended).  With iteration bound 100 the loop tests 99 candidates and
    prints a match line for each one whose buffer, the 16 raw bytes of the
    digest followed by 114 zero bytes, contains the lower-cased pattern, and
    for no other: zero match lines are printed exactly when no buffer
    contains the pattern. *)
Theorem match_lines_are_the_raw_matches w substr str_size :
  0 <= str_size ->
  exists s,
    search_md5_containing w substr str_size 100 = Finished s /\
    length (history s) = 99%nat /\
    match_lines (out s) = history s ≫= match_line /\
    (forall e, e ∈ history s ->
       it_found e = find (MD5 (it_candidate e) ++ replicate 114 0)
                         (make_pattern substr)) /\
    (match_lines (out s) = [] <->
     forall e, e ∈ history s ->
       find (MD5 (it_candidate e) ++ replicate 114 0) (make_pattern substr)
         = None).
Proof.
  intros Hsize.
  destruct (search_spec w substr str_size 100) as (s & Hs & Hh & Ho & _);
    [done|unfold SIZE_MAX; lia|].
  assert (Hfound : forall e, e ∈ history s ->
            it_found e = find (MD5 (it_candidate e) ++ replicate 114 0)
                              (make_pattern substr)).
  { intros e He. rewrite Hh in He.
    by apply history_elem in He as (i & Hi & ->). }
  exists s. split; [done|].
  split; [by rewrite Hh, length_fmap, length_seqZ|].
  split; [by rewrite Ho, match_lines_lines|].
  split; [done|].
  rewrite Ho, match_lines_lines, bind_match_line_nil.
  split; intros Hall e He.
  - rewrite <- Hfound by done. by apply Hall.
  - rewrite Hfound by done. by apply Hall.
Qed.

Lemma match_lines_are_the_raw_matches_witness :
  0 <= 10 /\
  exists s,
    search_md5_containing (constant_world 1 0) (bytes "'='") 10 100
      = Finished s /\
    length (history s) = 99%nat.
Proof.
  assert (H1 : 0 <= 10) by lia.
  split; [exact H1|].
  destruct (match_lines_are_the_raw_matches
              (constant_world 1 0) (bytes "'='") 10 H1)
    as (s & Hs & Hlen & _).
  exists s. split; [exact Hs|exact Hlen].
Defined.

(** ** What [find] finds *)

Lemma starts_with_prefix pat : forall s,
  starts_with s pat = true <-> exists l2, s = pat ++ l2.
Proof.
  induction pat as [|p pat IH]; intros s.
  - destruct s; cbn [starts_with]; (split; [intros _; by eexists|done]).
  - destruct s as [|c s]; cbn [starts_with].
    + split; [done|]. intros [l2 Heq]. discriminate.
    + rewrite andb_true_iff, Z.eqb_eq, IH. split.
      * intros [-> [l2 ->]]. by exists l2.
      * intros [l2 [= -> ->]]. split; [done|]. by exists l2.
Qed.

(** A position that [find] returns is one at which the pattern occurs. *)
Lemma find_Some s pat : forall p,
  find s pat = Some p ->
  exists l1 l2, s = l1 ++ pat ++ l2 /\ length l1 = p.
Proof.
  induction s as [|c s IH]; intros p; cbn [find].
  - destruct (starts_with [] pat) eqn:E; [|done]. intros [= <-].
    apply starts_with_prefix in E as [l2 ->]. by exists [], l2.
  - destruct (starts_with (c :: s) pat) eqn:E.
    + intros [= <-]. apply starts_with_prefix in E as [l2 E].
      by exists [], l2.
    + destruct (find s pat) as [q|] eqn:F; [|done]. intros [= <-].
      destruct (IH q eq_refl) as (l1 & l2 & -> & <-).
      by exists (c :: l1), l2.
Qed.

(** [find] returns [npos] only when the pattern occurs nowhere. *)
Lemma find_occurrence l1 : forall s pat l2,
  s = l1 ++ pat ++ l2 -> is_Some (find s pat).
Proof.
  induction l1 as [|c l1 IH]; intros s pat l2 ->.
  - assert (E : starts_with ([] ++ pat ++ l2) pat = true)
      by (apply starts_with_prefix; by exists l2).
    destruct pat, l2; cbn [find app] in *; rewrite E; done.
  - cbn [app find]. destruct (starts_with _ pat); [done|].
    destruct (IH (l1 ++ pat ++ l2) pat l2 eq_refl) as [q ->]. done.
Qed.

Lemma make_pattern_nonzero substr :
  Forall (fun b => b <> 0) (make_pattern substr).
Proof.
  unfold make_pattern. apply Forall_fmap.
  induction substr as [|b r IH]; cbn [c_str]; [done|].
  destruct (Z.eqb_spec b 0); [done|]. constructor; [|done].
  cbn. unfold tolower. destruct ((65 <=? b) && (b <=? 90)) eqn:E; lia.
Qed.

(** A pattern of more than 16 bytes is never found: it has no zero byte, and
    would have to reach into the zero bytes of the buffer. *)
Lemma long_pattern_not_found d pat :
  length d = 16%nat -> (16 < length pat)%nat ->
  Forall (fun b => b <> 0) pat ->
  find (d ++ replicate 114 0) pat = None.
Proof.
  intros Hd Hpat Hnz.
  destruct (find (d ++ replicate 114 0) pat) as [p|] eqn:F; [|done].
  exfalso. apply find_Some in F as (l1 & l2 & Heq & _).
  assert (Hlen : (length l1 + length pat + length l2 = 130)%nat).
  { apply (f_equal length) in Heq.
    rewrite !length_app, length_replicate in Heq. lia. }
  set (j := Nat.max (length l1) 16).
  assert (Hzero : (d ++ replicate 114 0) !! j = Some 0).
  { rewrite lookup_app_r by lia. apply lookup_replicate_2. lia. }
  rewrite Heq, lookup_app_r, lookup_app_l in Hzero by lia.
  rewrite Forall_lookup in Hnz. by apply Hnz in Hzero.
Qed.

(** X5.  A pattern of more than 16 characters is never found: for every
    bound and every world, the search prints no match line. *)
Lemma long_pattern_no_match_lines w substr str_size b :
  0 <= str_size -> 0 <= b <= SIZE_MAX -> (16 < strlen substr)%nat ->
  exists s,
    search_md5_containing w substr str_size b = Finished s /\
    match_lines (out s) = [].
Proof.
  intros Hsize Hb Hlong.
  destruct (search_spec w substr str_size b) as (s & Hs & Hh & Ho & _);
    [done|done|].
  exists s. split; [done|].
  rewrite Ho, match_lines_lines, bind_match_line_nil.
  intros e He. rewrite Hh in He.
  apply history_elem in He as (i & _ & ->).
  cbn [iteration_of it_found]. unfold buffer_of.
  apply long_pattern_not_found.
  - apply length_MD5.
  - unfold make_pattern. by rewrite length_fmap.
  - apply make_pattern_nonzero.
Qed.

Example search_for_17_characters :
  exists s,
    search_md5_containing (scripted_world [1; 1; 1; 1; 1; 1; 2; 10; 3; 13] 0)
      (bytes "0123456789abcdefg") 10 100 = Finished s /\
    match_lines (out s) = [].
Proof. eexists. split; [vm_compute; reflexivity|]. reflexivity. Qed.

(** ** Progress markers *)

(** The counters of the markers of a run, for every bound: the multiples of
    10,000,000 below the bound, counted from 1, each reduced to an [int]. *)
Lemma progress_counters_spec w substr str_size b :
  0 <= str_size -> 0 <= b <= SIZE_MAX ->
  exists s,
    search_md5_containing w substr str_size b = Finished s /\
    history s =
      iteration_of w (make_pattern substr) str_size <$> seqZ 1 (b - 1) /\
    progress_counters (out s) = omap it_marker (history s) /\
    progress_counters (out s) = to_int <$> seqZ 1 ((b - 1) / 10000000).
Proof.
  intros Hsize Hb.
  destruct (search_spec w substr str_size b) as (s & Hs & Hh & Ho & _);
    [done|done|].
  exists s. split; [done|]. split; [done|].
  split; [by rewrite Ho, progress_counters_lines|].
  by rewrite Ho, progress_counters_lines, Hh, omap_marker_iterations,
       omap_marker_seqZ_Z.
Qed.

(** An [int] is below [2^31] whatever [++k] does at [INT_MAX]: a strictly
    increasing list of [int]s that starts at [x] has at most [2^31 - x]
    elements. *)
Lemma increasing_ints_are_few (l : list Z) : forall x,
  StronglySorted Z.lt (x :: l) ->
  Forall (fun c => c < 2 ^ 31) (x :: l) ->
  Z.of_nat (length (x :: l)) <= 2 ^ 31 - x.
Proof.
  induction l as [|y l IH]; intros x Hsorted Hint.
  - apply Forall_inv in Hint. cbn [length]. lia.
  - apply StronglySorted_inv in Hsorted as [Hsorted Hlt].
    apply Forall_inv in Hlt. apply Forall_inv_tail in Hint.
    specialize (IH y Hsorted Hint).
    change (length (x :: y :: l)) with (S (length (y :: l))). lia.
Qed.

(** C4, as stated, fails for large bounds.  The argument [4294967295] makes
    [ulimit] the [int] -1 and the bound of the loop [SIZE_MAX].  The run then
    prints 1844674407370 markers, more than the 2147483647 values an [int]
    counter can take in increasing order from 1 ([increasing_ints_are_few]).
    At the marker that follows the one numbered 2147483647, [++k] overflows
    the [int]; with the overflow modelled as two's-complement wrap-around
    ([to_int]) that marker carries -2147483648, and the counters are not
    increasing. *)
Lemma progress_counter_overflows :
  main_bound ["md5_checker"%string; "4294967295"%string] = SIZE_MAX /\
  exists s l1 l2,
    main (constant_world 1 0) ["md5_checker"%string; "4294967295"%string]
      = Finished s /\
    progress_counters (out s) = l1 ++ [2147483647; -2147483648] ++ l2 /\
    ~ StronglySorted Z.lt (progress_counters (out s)) /\
    Z.of_nat (length (progress_counters (out s))) = 1844674407370 /\
    2 ^ 31 - 1 < 1844674407370.
Proof.
  assert (Hbound :
    main_bound ["md5_checker"%string; "4294967295"%string] = SIZE_MAX)
    by reflexivity.
  split; [exact Hbound|]. unfold main. rewrite Hbound.
  destruct (progress_counters_spec (constant_world 1 0) (bytes "'='") 10
              SIZE_MAX) as (s & Hs & _ & _ & Hc);
    [lia|unfold SIZE_MAX; lia|].
  assert (Hcount :
    Z.of_nat (length (progress_counters (out s))) = 1844674407370).
  { rewrite Hc, length_fmap, length_seqZ.
    assert (Hq : (SIZE_MAX - 1) / 10000000 = 1844674407370) by reflexivity.
    rewrite Hq. apply Z2Nat.id. lia. }
  assert (Hq : (SIZE_MAX - 1) / 10000000
               = 2147483646 + (2 + 1842526923722)) by reflexivity.
  rewrite Hq in Hc.
  rewrite seqZ_app, seqZ_app in Hc by lia.
  rewrite (seqZ_cons _ 2), (seqZ_cons _ (Z.pred 2)) in Hc by lia.
  rewrite (seqZ_nil _ (Z.pred (Z.pred 2))) in Hc by lia.
  rewrite !fmap_app in Hc. cbn [fmap list_fmap] in Hc.
  assert (H1 : to_int (1 + 2147483646) = 2147483647) by reflexivity.
  assert (H2 : to_int (Z.succ (1 + 2147483646)) = -2147483648) by reflexivity.
  rewrite H1, H2 in Hc.
  exists s. eexists. eexists. split; [exact Hs|]. split; [exact Hc|].
  split; [|split; [exact Hcount|lia]].
  rewrite Hc. intros Hsorted.
  apply StronglySorted_app_1_r, StronglySorted_app_1_l in Hsorted.
  apply StronglySorted_inv in Hsorted as [_ Hall].
  apply Forall_inv in Hall. lia.
Qed.

(** C4 (amended).  For every bound up to 2^31 * 10,000,000, so that the
    [int] counter does not overflow: the body prints a marker in the
    iterations whose index is a multiple of 10,000,000, once, and in no
    other; the marker of iteration [i] carries [i / 10,000,000]; the counters
    printed are 1, 2, ... up to the number of multiples below the bound, in
    increasing order. *)
Theorem progress_marker_every_period w substr str_size b :
  0 <= str_size -> 0 <= b <= 21474836480000000 ->
  exists s,
    search_md5_containing w substr str_size b = Finished s /\
    it_index <$> history s = seqZ 1 (b - 1) /\
    (forall e, e ∈ history s ->
       it_marker e =
         if it_index e mod 10000000 =? 0
         then Some (it_index e / 10000000) else None) /\
    progress_counters (out s) = omap it_marker (history s) /\
    progress_counters (out s) = seqZ 1 ((b - 1) / 10000000) /\
    StronglySorted Z.lt (progress_counters (out s)) /\
    (10000000 < b -> head (progress_counters (out s)) = Some 1).
Proof.
  intros Hsize Hb.
  destruct (progress_counters_spec w substr str_size b)
    as (s & Hs & Hh & Hm & Hc); [done|unfold SIZE_MAX; lia|].
  assert (Hc' : progress_counters (out s) = seqZ 1 ((b - 1) / 10000000)).
  { rewrite Hc. apply fmap_to_int_small, Forall_seqZ.
    intros m Hm'. Z.div_mod_to_equations. lia. }
  exists s. split; [done|].
  split; [by rewrite Hh, fmap_index_iterations|].
  split.
  { intros e He. rewrite Hh in He.
    apply history_elem in He as (i & Hi & ->).
    cbn [iteration_of it_marker it_index]. unfold marker.
    destruct (i mod 10000000 =? 0); [|done].
    f_equal. apply to_int_small. Z.div_mod_to_equations. lia. }
  split; [done|]. split; [done|].
  split; [rewrite Hc'; apply StronglySorted_seqZ_Z|].
  intros Hlarge. rewrite Hc'.
  rewrite seqZ_cons by (Z.div_mod_to_equations; lia). reflexivity.
Qed.

(** The bound 20000001 lets the iterations 10000000 and 20000000 run: two
    markers, numbered 1 and 2. *)
Lemma progress_marker_every_period_witness :
  0 <= 10 /\ 0 <= 20000001 <= 21474836480000000 /\
  exists s,
    search_md5_containing (constant_world 1 0) (bytes "'='") 10 20000001
      = Finished s /\
    progress_counters (out s) = omap it_marker (history s) /\
    progress_counters (out s) = [1; 2] /\
    StronglySorted Z.lt (progress_counters (out s)) /\
    head (progress_counters (out s)) = Some 1.
Proof.
  assert (H1 : 0 <= 10) by lia.
  assert (H2 : 0 <= 20000001 <= 21474836480000000) by lia.
  split; [exact H1|]. split; [exact H2|].
  destruct (progress_marker_every_period
              (constant_world 1 0) (bytes "'='") 10 20000001 H1 H2)
    as (s & Hs & _ & _ & Hmark & Hc & Hsorted & Hhead).
  assert (H3 : 10000000 < 20000001) by lia.
  exists s. split; [exact Hs|]. split; [exact Hmark|].
  split; [exact Hc|]. split; [exact Hsorted|exact (Hhead H3)].
Defined.

(** ** The command line *)

Lemma isdigit_range b : isdigit b = true -> 48 <= b <= 57.
Proof. unfold isdigit. intros [H1 H2]%andb_true_iff. lia. Qed.

Lemma isdigit_not_space b : isdigit b = true -> isspace b = false.
Proof. intros H%isdigit_range. unfold isspace. lia. Qed.

Lemma c_str_digits s : forallb isdigit s = true -> c_str s = s.
Proof.
  induction s as [|b s IH]; [done|].
  cbn [forallb c_str]. intros [Hb Hs]%andb_true_iff.
  apply isdigit_range in Hb. destruct (Z.eqb_spec b 0); [lia|].
  by rewrite IH.
Qed.

Lemma digits_value_digits s : forall acc,
  forallb isdigit s = true ->
  digits_value s acc = fold_left (fun a b => 10 * a + (b - 48)) s acc.
Proof.
  induction s as [|b s IH]; intros acc; [done|].
  cbn [forallb digits_value fold_left]. intros [Hb Hs]%andb_true_iff.
  rewrite Hb. by apply IH.
Qed.

Lemma fold_digits_nonneg s : forall acc,
  forallb isdigit s = true -> 0 <= acc ->
  0 <= fold_left (fun a b => 10 * a + (b - 48)) s acc.
Proof.
  induction s as [|b s IH]; intros acc; [done|].
  cbn [forallb fold_left]. intros [Hb Hs]%andb_true_iff Hacc.
  apply isdigit_range in Hb. apply IH; [done|lia].
Qed.

Lemma strtoul_valid s :
  valid_unsigned s = true -> decimal_value s <= SIZE_MAX ->
  strtoul s = decimal_value s.
Proof.
  unfold valid_unsigned, strtoul, decimal_value.
  destruct s as [|b r]; [done|]. intros Hdigits Hmax.
  rewrite (c_str_digits _ Hdigits).
  pose proof Hdigits as [Hb _]%andb_true_iff.
  cbn [skip_spaces]. rewrite (isdigit_not_space _ Hb).
  apply isdigit_range in Hb.
  destruct (Z.eqb_spec b 45); [lia|]. destruct (Z.eqb_spec b 43); [lia|].
  cbv zeta. rewrite (digits_value_digits _ _ Hdigits).
  destruct (Z.ltb_spec SIZE_MAX
              (fold_left (fun a b0 => 10 * a + (b0 - 48)) (b :: r) 0));
    [lia|done].
Qed.

Lemma strtoul_not_numeric s : not_numeric s = true -> strtoul s = 0.
Proof.
  unfold not_numeric, strtoul. destruct s as [|b r]; [done|].
  intros H%negb_true_iff.
  apply orb_false_iff in H as [H H45]. apply orb_false_iff in H as [H H43].
  apply orb_false_iff in H as [Hd Hs].
  cbn [c_str]. destruct (b =? 0); [done|].
  cbn [skip_spaces]. rewrite Hs, H45, H43. cbn [digits_value]. by rewrite Hd.
Qed.

Lemma main_bound_argument prog arg rest :
  main_bound (prog :: arg :: rest)
  = to_size_t (to_int (strtoul (bytes arg))).
Proof.
  unfold main_bound, main_ulimit. cbn [length nth].
  destruct (Z.ltb_spec 1 (Z.of_nat (S (S (length rest))))); [done|lia].
Qed.

(** C2, as stated, fails.  An argument that is not a number makes [strtoul]
    return 0, and 0 is the bound; and a valid unsigned integer above the
    range of [int] does not reach the loop as it was written. *)
Lemma invalid_argument_gives_bound_zero :
  valid_unsigned (bytes "abc") = false /\
  main_bound ["md5_checker"%string; "abc"%string] = 0 /\
  main_bound ["md5_checker"%string; "abc"%string] <> 100 /\
  valid_unsigned (bytes "3000000000") = true /\
  decimal_value (bytes "3000000000") = 3000000000 /\
  main_bound ["md5_checker"%string; "3000000000"%string]
    = 18446744072414584320.
Proof. repeat split. vm_compute. discriminate. Qed.

(** C2 (amended).  Without an argument the bound of the search loop is 100.
    With an argument, it is the result of [strtoul] converted to [int] and
    then to [size_t]: a valid unsigned integer below [2^31] is the bound; an
    argument that does not begin a number gives the bound 0. *)
Theorem bound_from_command_line w prog arg rest :
  (forall argv, (length argv <= 1)%nat ->
     main_bound argv = 100 /\
     main w argv = search_md5_containing w (bytes "'='") 10 100) /\
  main w (prog :: arg :: rest)
    = search_md5_containing w (bytes "'='") 10
        (to_size_t (to_int (strtoul (bytes arg)))) /\
  (valid_unsigned (bytes arg) = true -> decimal_value (bytes arg) < 2 ^ 31 ->
   main_bound (prog :: arg :: rest) = decimal_value (bytes arg)) /\
  (not_numeric (bytes arg) = true -> main_bound (prog :: arg :: rest) = 0).
Proof.
  split.
  { intros argv Hlen.
    assert (Hb : main_bound argv = 100).
    { unfold main_bound, main_ulimit.
      destruct (Z.ltb_spec 1 (Z.of_nat (length argv))); [lia|done]. }
    split; [done|]. unfold main. by rewrite Hb. }
  split; [unfold main; by rewrite main_bound_argument|].
  split.
  - intros Hvalid Hsmall. rewrite main_bound_argument.
    assert (Hpos : 0 <= decimal_value (bytes arg)).
    { unfold decimal_value. apply fold_digits_nonneg; [|done].
      unfold valid_unsigned in Hvalid. by destruct (bytes arg). }
    rewrite strtoul_valid by (done || unfold SIZE_MAX; lia).
    rewrite to_int_small by lia. apply to_size_t_small. unfold SIZE_MAX. lia.
  - intros Hnot. rewrite main_bound_argument.
    by rewrite strtoul_not_numeric.
Qed.

Lemma bound_from_command_line_witness :
  valid_unsigned (bytes "42") = true /\
  decimal_value (bytes "42") < 2 ^ 31 /\
  not_numeric (bytes "abc") = true /\
  main_bound ["md5_checker"%string] = 100 /\
  main_bound ["md5_checker"%string; "42"%string] = decimal_value (bytes "42") /\
  main_bound ["md5_checker"%string; "abc"%string] = 0.
Proof.
  assert (H1 : valid_unsigned (bytes "42") = true) by reflexivity.
  assert (H2 : decimal_value (bytes "42") < 2 ^ 31) by reflexivity.
  assert (H3 : not_numeric (bytes "abc") = true) by reflexivity.
  assert (H4 : (length ["md5_checker"%string] <= 1)%nat) by (simpl; lia).
  split; [exact H1|]. split; [exact H2|]. split; [exact H3|].
  split.
  { exact (proj1 (proj1 (bound_from_command_line
                           (constant_world 1 0) "md5_checker" "42" [])
                        _ H4)). }
  split.
  - exact (proj1 (proj2 (proj2 (bound_from_command_line
                                  (constant_world 1 0) "md5_checker" "42" [])))
                 H1 H2).
  - exact (proj2 (proj2 (proj2 (bound_from_command_line
                                  (constant_world 1 0) "md5_checker" "abc" [])))
                 H3).
Defined.

(** * Further properties of the program *)

(** ** [generate_string] *)

(** X1.  For a length [size >= 0], [generate_string] succeeds, calls [rand]
    exactly [size] times and returns a string of exactly [size] characters,
    the [j]-th of which is selected by the [j]-th of these calls; what
    [result] held before plays no part. *)
Theorem generate_string_fills_requested_length w result result' c size :
  0 <= size ->
  exists r,
    generate_string w result c size = Some (r, (c + Z.to_nat size)%nat) /\
    generate_string w result' c size = Some (r, (c + Z.to_nat size)%nat) /\
    Z.of_nat (length r) = size /\
    forall j, (j < Z.to_nat size)%nat ->
      r !! j = Some (charset_read w (charset_index (rand_value w (c + j)))).
Proof.
  intros Hsize.
  exists (random_char w <$> seq c (Z.to_nat size)).
  rewrite !generate_string_spec by done.
  split; [done|]. split; [done|].
  split; [rewrite length_fmap, length_seq; lia|].
  intros j Hj. rewrite list_lookup_fmap, lookup_seq_lt by done. reflexivity.
Qed.

Lemma generate_string_fills_requested_length_witness :
  0 <= 3 /\
  exists r,
    generate_string (scripted_world [2; 36; 35] 7) [9; 9; 9; 9; 9] 0 3
      = Some (r, (0 + Z.to_nat 3)%nat) /\
    Z.of_nat (length r) = 3.
Proof.
  assert (H : 0 <= 3) by lia.
  split; [exact H|].
  destruct (generate_string_fills_requested_length
              (scripted_world [2; 36; 35] 7) [9; 9; 9; 9; 9] [] 0 3 H)
    as (r & Hr & _ & Hlen & _).
  exists r. split; [exact Hr|exact Hlen].
Defined.

(** X2.  Which character a value [r] of [rand] selects.  With
    [m = r % 36]: for [m = 0] the character is the byte at offset -1, before
    the array; for [m >= 1] it is the character number [m - 1] of the
    character set.  The index is never 35: the terminating NUL of the array
    is never selected, and no offset other than -1 is read outside it. *)
Theorem character_selected_by_rand w r :
  let m := to_size_t r mod sizeof_charset in
  charset_read w (charset_index r) =
    (if m =? 0 then outside_charset w (-1)
     else nth (Z.to_nat (m - 1)) charset_characters 0) /\
  (m <> 0 -> In (charset_read w (charset_index r)) charset_characters) /\
  charset_index r <> 35 /\
  (charset_index r = SIZE_MAX \/ 0 <= charset_index r < 35).
Proof.
  intros m.
  assert (Hm : 0 <= m < 36).
  { apply (Z.mod_pos_bound (to_size_t r) sizeof_charset). reflexivity. }
  assert (Hidx : charset_index r = if m =? 0 then SIZE_MAX else m - 1).
  { unfold charset_index. fold m. destruct (Z.eqb_spec m 0) as [->|Hne].
    - reflexivity.
    - apply to_size_t_small. unfold SIZE_MAX. lia. }
  split; [|split; [|split]].
  - unfold charset_read. rewrite Hidx. destruct (Z.eqb_spec m 0) as [E|E].
    + reflexivity.
    + assert (Hoff : to_ptrdiff (m - 1) = m - 1).
      { unfold to_ptrdiff. rewrite Z.mod_small; lia. }
      rewrite Hoff. unfold sizeof_charset.
      destruct ((0 <=? m - 1) && (m - 1 <? 36)) eqn:B; [|lia].
      unfold charset. apply app_nth1.
      change (length charset_characters) with 35%nat. lia.
  - intros Hne.
    apply (random_char_in_charset (constant_world r 0) 0) in Hne as Hin.
    unfold random_char in Hin. cbn [rand_value constant_world] in Hin.
    unfold charset_read in *. rewrite Hidx in *.
    destruct (Z.eqb_spec m 0) as [E|E]; [done|].
    assert (Hoff : to_ptrdiff (m - 1) = m - 1).
    { unfold to_ptrdiff. rewrite Z.mod_small; lia. }
    rewrite Hoff in *. unfold sizeof_charset in *.
    destruct ((0 <=? m - 1) && (m - 1 <? 36)) eqn:B; [done|lia].
  - rewrite Hidx. destruct (Z.eqb_spec m 0); [done|lia].
  - rewrite Hidx. destruct (Z.eqb_spec m 0); [by left|right; lia].
Qed.

(** ** Errors of the search loop *)

Lemma body_negative_length w pattern str_size i s :
  str_size < 0 -> body w pattern str_size i s = None.
Proof.
  intros Hneg. unfold body. destruct (progress i s) as [s1 m].
  unfold generate_string. by destruct (Z.ltb_spec str_size 0); [|lia].
Qed.

(** X3.  The search loop ends by an exception exactly when the candidate
    length is negative and the bound lets the body run at least once
    ([ulimit >= 2]): the first [resize] throws.  In every other case it
    finishes. *)
Theorem search_throws_iff_negative_length w substr str_size b :
  0 <= b <= SIZE_MAX ->
  (search_md5_containing w substr str_size b = Thrown
   <-> str_size < 0 /\ 2 <= b) /\
  (~ (str_size < 0 /\ 2 <= b) ->
   exists s, search_md5_containing w substr str_size b = Finished s).
Proof.
  intros Hb.
  destruct (Z.lt_ge_cases str_size 0) as [Hneg|Hpos].
  - destruct (Z.lt_ge_cases b 2) as [Hsmall|Hlarge].
    + assert (Hfin : search_md5_containing w substr str_size b
                     = Finished initial_state).
      { unfold search_md5_containing.
        destruct (Z.to_nat b); cbn [loop];
          by destruct (Z.ltb_spec 1 b); [lia|]. }
      split; [|by eauto]. rewrite Hfin. split; [done|lia].
    + assert (Hthrown : search_md5_containing w substr str_size b = Thrown).
      { unfold search_md5_containing.
        destruct (Z.to_nat b) eqn:E; [lia|]. cbn [loop].
        destruct (Z.ltb_spec 1 b); [|lia].
        by rewrite body_negative_length. }
      split; [|intros []; by split]. by rewrite Hthrown.
  - destruct (search_spec w substr str_size b) as (s & Hs & _); [lia|done|].
    split; [|by eauto]. rewrite Hs. split; [done|lia].
Qed.

Lemma search_throws_iff_negative_length_witness :
  0 <= 5 <= SIZE_MAX /\
  (search_md5_containing (constant_world 1 0) (bytes "'='") (-3) 5 = Thrown
   <-> -3 < 0 /\ 2 <= 5).
Proof.
  assert (H : 0 <= 5 <= SIZE_MAX) by (unfold SIZE_MAX; lia).
  split; [exact H|].
  exact (proj1 (search_throws_iff_negative_length
                  (constant_world 1 0) (bytes "'='") (-3) 5 H)).
Defined.

(** ** The match test *)

Lemma starts_with_padding pat : forall s n,
  Forall (fun b => b <> 0) pat ->
  starts_with (s ++ replicate n 0) pat = starts_with s pat.
Proof.
  induction pat as [|p pat IH]; intros s n Hnz.
  - by destruct s, n.
  - apply Forall_cons in Hnz as [Hp Hnz].
    destruct s as [|c s]; cbn [app starts_with].
    + destruct n as [|n]; cbn [replicate starts_with]; [done|].
      by destruct (Z.eqb_spec p 0).
    + by rewrite IH.
Qed.

Lemma find_zeros pat n :
  pat <> [] -> Forall (fun b => b <> 0) pat -> find (replicate n 0) pat = None.
Proof.
  intros Hne Hnz. destruct pat as [|p pat]; [done|].
  apply Forall_cons in Hnz as [Hp _].
  induction n as [|n IH]; cbn [replicate find starts_with]; [done|].
  destruct (Z.eqb_spec p 0); [done|]. cbn [andb]. by rewrite IH.
Qed.

Lemma find_nil s : find s [] = Some 0%nat.
Proof. by destruct s. Qed.

(** The zero bytes appended to a string never change what a pattern without
    zero byte finds in it. *)
Lemma find_padding pat : forall s n,
  Forall (fun b => b <> 0) pat ->
  find (s ++ replicate n 0) pat = find s pat.
Proof.
  intros s n Hnz. induction s as [|c s IH].
  - cbn [app]. destruct pat as [|p pat].
    + by rewrite !find_nil.
    + by rewrite find_zeros.
  - cbn [app find]. rewrite <- IH.
    change (c :: s ++ replicate n 0) with ((c :: s) ++ replicate n 0).
    by rewrite starts_with_padding.
Qed.

Lemma find_within s pat p :
  find s pat = Some p -> (p + length pat <= length s)%nat.
Proof.
  intros (l1 & l2 & -> & <-)%find_Some. rewrite !length_app. lia.
Qed.

(** X4.  The 114 zero bytes of the buffer never take part in a match: in
    every iteration the result of the match test is what [find] returns on
    the 16 bytes of the digest alone, and a position found leaves room for
    the pattern inside the digest. *)
Theorem padding_never_matches w substr str_size b :
  0 <= str_size -> 0 <= b <= SIZE_MAX ->
  exists s,
    search_md5_containing w substr str_size b = Finished s /\
    forall e, e ∈ history s ->
      it_found e = find (MD5 (it_candidate e)) (make_pattern substr) /\
      forall p, it_found e = Some p -> (p + strlen substr <= 16)%nat.
Proof.
  intros Hsize Hb.
  destruct (search_spec w substr str_size b) as (s & Hs & Hh & _);
    [done|done|].
  exists s. split; [done|].
  intros e He. rewrite Hh in He.
  apply history_elem in He as (i & _ & ->).
  cbn [iteration_of it_found it_candidate]. unfold buffer_of.
  rewrite find_padding by apply make_pattern_nonzero.
  split; [done|]. intros p Hp%find_within.
  rewrite length_MD5 in Hp. unfold make_pattern in Hp.
  by rewrite length_fmap in Hp.
Qed.

Lemma padding_never_matches_witness :
  0 <= 10 /\ 0 <= 3 <= SIZE_MAX /\
  exists s,
    search_md5_containing (constant_world 1 0) [241; 183] 10 3 = Finished s /\
    forall e, e ∈ history s ->
      it_found e = find (MD5 (it_candidate e)) (make_pattern [241; 183]).
Proof.
  assert (H1 : 0 <= 10) by lia.
  assert (H2 : 0 <= 3 <= SIZE_MAX) by (unfold SIZE_MAX; lia).
  split; [exact H1|]. split; [exact H2|].
  destruct (padding_never_matches (constant_world 1 0) [241; 183] 10 3 H1 H2)
    as (s & Hs & Hall).
  exists s. split; [exact Hs|].
  intros e He. exact (proj1 (Hall e He)).
Defined.

Lemma long_pattern_no_match_lines_witness :
  0 <= 10 /\ 0 <= 3 <= SIZE_MAX /\
  (16 < strlen (bytes "0123456789abcdefg"))%nat /\
  exists s,
    search_md5_containing (constant_world 1 0) (bytes "0123456789abcdefg")
      10 3 = Finished s /\
    match_lines (out s) = [].
Proof.
  assert (H1 : 0 <= 10) by lia.
  assert (H2 : 0 <= 3 <= SIZE_MAX) by (unfold SIZE_MAX; lia).
  assert (H3 : (16 < strlen (bytes "0123456789abcdefg"))%nat)
    by (vm_compute; lia).
  split; [exact H1|]. split; [exact H2|]. split; [exact H3|].
  exact (long_pattern_no_match_lines
           (constant_world 1 0) (bytes "0123456789abcdefg") 10 3 H1 H2 H3).
Defined.

Lemma length_bind_match_line (l : list iteration) :
  (forall e, e ∈ l -> is_Some (it_found e)) ->
  length (l ≫= match_line) = length l.
Proof.
  induction l as [|e l IH]; intros Hall; [done|].
  cbn [mbind list_bind]. fold (l ≫= match_line).
  rewrite length_app, IH.
  - destruct (Hall e) as [p Hp]; [apply elem_of_cons; by left|].
    unfold match_line. by rewrite Hp.
  - intros e' He'. apply Hall, elem_of_cons. by right.
Qed.

(** X6.  An empty pattern (a [substr] that is empty or starts with a NUL)
    is found at position 0 of every buffer: every iteration prints a match
    line, [ulimit - 1] of them in all. *)
Theorem empty_pattern_always_matches w substr str_size b :
  0 <= str_size -> 1 <= b <= SIZE_MAX -> strlen substr = 0%nat ->
  exists s,
    search_md5_containing w substr str_size b = Finished s /\
    (forall e, e ∈ history s -> it_found e = Some 0%nat) /\
    Z.of_nat (length (match_lines (out s))) = b - 1.
Proof.
  intros Hsize Hb Hempty.
  destruct (search_spec w substr str_size b) as (s & Hs & Hh & Ho & _);
    [done|lia|].
  assert (Hpat : make_pattern substr = []).
  { unfold make_pattern, strlen in *.
    by rewrite (nil_length_inv _ Hempty). }
  assert (Hfound : forall e, e ∈ history s -> it_found e = Some 0%nat).
  { intros e He. rewrite Hh in He.
    apply history_elem in He as (i & _ & ->).
    cbn [iteration_of it_found]. rewrite Hpat. apply find_nil. }
  exists s. split; [done|]. split; [done|].
  rewrite Ho, match_lines_lines, length_bind_match_line.
  - rewrite Hh, length_fmap, length_seqZ. lia.
  - intros e He. rewrite Hfound by done. by eexists.
Qed.

Lemma empty_pattern_always_matches_witness :
  0 <= 10 /\ 1 <= 3 <= SIZE_MAX /\ strlen (bytes "") = 0%nat /\
  exists s,
    search_md5_containing (constant_world 1 0) (bytes "") 10 3 = Finished s /\
    Z.of_nat (length (match_lines (out s))) = 3 - 1.
Proof.
  assert (H1 : 0 <= 10) by lia.
  assert (H2 : 1 <= 3 <= SIZE_MAX) by (unfold SIZE_MAX; lia).
  assert (H3 : strlen (bytes "") = 0%nat) by reflexivity.
  split; [exact H1|]. split; [exact H2|]. split; [exact H3|].
  destruct (empty_pattern_always_matches
              (constant_world 1 0) (bytes "") 10 3 H1 H2 H3)
    as (s & Hs & _ & Hlen).
  exists s. split; [exact Hs|exact Hlen].
Defined.

(** ** The pattern *)

Lemma c_str_fmap (f : Z -> Z) (l : list Z) :
  (forall b, f b = 0 <-> b = 0) -> c_str (f <$> l) = f <$> c_str l.
Proof.
  intros Hf. induction l as [|b l IH]; [done|].
  cbn [fmap list_fmap c_str]. fold (f <$> l).
  destruct (Z.eqb_spec b 0) as [->|Hb].
  - by rewrite (proj2 (Hf 0) eq_refl).
  - destruct (Z.eqb_spec (f b) 0) as [E|E].
    + apply (proj1 (Hf b)) in E. contradiction.
    + cbn [fmap list_fmap]. by rewrite IH.
Qed.

Lemma tolower_zero b : tolower b = 0 <-> b = 0.
Proof.
  unfold tolower. destruct ((65 <=? b) && (b <=? 90)) eqn:E; lia.
Qed.

Lemma toupper_zero b : toupper b = 0 <-> b = 0.
Proof.
  unfold toupper. destruct ((97 <=? b) && (b <=? 122)) eqn:E; lia.
Qed.

Lemma tolower_toupper b : tolower (toupper b) = tolower b.
Proof.
  unfold tolower, toupper.
  destruct ((97 <=? b) && (b <=? 122)) eqn:E1;
    destruct ((65 <=? b) && (b <=? 90)) eqn:E2;
    repeat match goal with
           | |- context [if ?c then _ else _] => destruct c eqn:?
           end; lia.
Qed.

Lemma tolower_tolower b : tolower (tolower b) = tolower b.
Proof.
  unfold tolower.
  destruct ((65 <=? b) && (b <=? 90)) eqn:E2;
    repeat match goal with
           | |- context [if ?c then _ else _] => destruct c eqn:?
           end; lia.
Qed.

(** X7.  The letter case of the pattern is irrelevant: the search for
    [substr] in upper case, or in lower case, is the search for [substr].
    The pattern that is searched holds no upper-case letter and no NUL, so a
    digest byte in ['A', 'Z'] is never part of a match. *)
Theorem pattern_case_is_irrelevant w substr str_size b :
  search_md5_containing w (toupper <$> substr) str_size b
    = search_md5_containing w substr str_size b /\
  search_md5_containing w (tolower <$> substr) str_size b
    = search_md5_containing w substr str_size b /\
  Forall (fun c => ~ (65 <= c <= 90) /\ c <> 0) (make_pattern substr).
Proof.
  assert (Hup : make_pattern (toupper <$> substr) = make_pattern substr).
  { unfold make_pattern. rewrite c_str_fmap by apply toupper_zero.
    rewrite <- list_fmap_compose. apply list_fmap_ext.
    intros _ c _. apply tolower_toupper. }
  assert (Hlow : make_pattern (tolower <$> substr) = make_pattern substr).
  { unfold make_pattern. rewrite c_str_fmap by apply tolower_zero.
    rewrite <- list_fmap_compose. apply list_fmap_ext.
    intros _ c _. apply tolower_tolower. }
  unfold search_md5_containing. rewrite Hup, Hlow.
  split; [done|]. split; [done|].
  pose proof (make_pattern_nonzero substr) as Hnz.
  unfold make_pattern in *. rewrite Forall_fmap in *.
  eapply Forall_impl; [exact Hnz|]. cbn. intros c Hc. split; [|done].
  unfold tolower in *. destruct ((65 <=? c) && (c <=? 90)) eqn:E; lia.
Qed.

(** ** The run as a whole *)

(** X8.  A larger bound extends the run: for bounds [b <= b'] over the same
    world and arguments, the iterations and the output of the search up to
    [b] are the beginning of those of the search up to [b']. *)
Theorem larger_bound_extends_run w substr str_size b b' :
  0 <= str_size -> 0 <= b <= b' -> b' <= SIZE_MAX ->
  exists s s',
    search_md5_containing w substr str_size b = Finished s /\
    search_md5_containing w substr str_size b' = Finished s' /\
    history s `prefix_of` history s' /\
    out s `prefix_of` out s'.
Proof.
  intros Hsize Hb Hb'.
  destruct (search_spec w substr str_size b) as (s & Hs & Hh & Ho & _);
    [done|lia|].
  destruct (search_spec w substr str_size b') as (s' & Hs' & Hh' & Ho' & _);
    [done|lia|].
  exists s, s'. split; [done|]. split; [done|].
  assert (Hpre : history s `prefix_of` history s').
  { destruct (Z.le_gt_cases 1 b) as [Hpos|Hzero].
    - rewrite Hh, Hh'.
      replace (b' - 1) with ((b - 1) + (b' - b)) by lia.
      rewrite seqZ_app, fmap_app by lia. by apply prefix_app_r.
    - rewrite Hh, seqZ_nil by lia. apply prefix_nil. }
  split; [done|].
  destruct Hpre as [rest Hrest]. rewrite Ho, Ho', Hrest, bind_app.
  by apply prefix_app_r.
Qed.

Lemma larger_bound_extends_run_witness :
  0 <= 10 /\ 0 <= 2 <= 4 /\ 4 <= SIZE_MAX /\
  exists s s',
    search_md5_containing (constant_world 1 0) (bytes "'='") 10 2
      = Finished s /\
    search_md5_containing (constant_world 1 0) (bytes "'='") 10 4
      = Finished s' /\
    history s `prefix_of` history s'.
Proof.
  assert (H1 : 0 <= 10) by lia.
  assert (H2 : 0 <= 2 <= 4) by lia.
  assert (H3 : 4 <= SIZE_MAX) by (unfold SIZE_MAX; lia).
  split; [exact H1|]. split; [exact H2|]. split; [exact H3|].
  destruct (larger_bound_extends_run
              (constant_world 1 0) (bytes "'='") 10 2 4 H1 H2 H3)
    as (s & s' & Hs & Hs' & Hpre & _).
  exists s, s'. split; [exact Hs|]. split; [exact Hs'|exact Hpre].
Defined.

Lemma c_str_padding (l : list Z) n : c_str (l ++ replicate (S n) 0) = c_str l.
Proof.
  induction l as [|c l IH]; [done|].
  cbn [app c_str]. by rewrite IH.
Qed.

Lemma length_c_str (l : list Z) : (length (c_str l) <= length l)%nat.
Proof.
  induction l as [|c l IH]; cbn [c_str length]; [done|].
  destruct (c =? 0); cbn [length]; lia.
Qed.

Lemma c_str_nonzero (l : list Z) : Forall (fun c => c <> 0) l -> c_str l = l.
Proof.
  induction 1 as [|c l Hc _ IH]; [done|].
  cbn [c_str]. destruct (Z.eqb_spec c 0); [done|]. by rewrite IH.
Qed.

(** X9.  What a match line shows.  Every match line of a run comes from an
    iteration that found the pattern; the candidate it prints is the
    candidate up to its first NUL (the whole candidate when it has none),
    and the digest it prints is the raw digest up to its first zero byte, at
    most 16 bytes. *)
Theorem match_line_content w substr str_size b c d :
  0 <= str_size -> 0 <= b <= SIZE_MAX ->
  exists s,
    search_md5_containing w substr str_size b = Finished s /\
    (Found c d ∈ out s ->
     exists e, e ∈ history s /\ is_Some (it_found e) /\
       c = c_str (it_candidate e) /\
       (Forall (fun x => x <> 0) (it_candidate e) -> c = it_candidate e) /\
       d = c_str (MD5 (it_candidate e)) /\
       (length d <= 16)%nat).
Proof.
  intros Hsize Hb.
  destruct (search_spec w substr str_size b) as (s & Hs & Hh & Ho & _);
    [done|done|].
  exists s. split; [done|].
  rewrite Ho. intros (e & Hin & He)%list_elem_of_bind.
  exists e. split; [done|].
  unfold lines_of, marker_line, match_line in Hin.
  apply elem_of_app in Hin as [Hin|Hin].
  { destruct (it_marker e); [|by apply elem_of_nil in Hin].
    by apply list_elem_of_singleton in Hin. }
  destruct (it_found e) as [p|] eqn:Hfound; [|by apply elem_of_nil in Hin].
  apply list_elem_of_singleton in Hin. injection Hin as -> ->.
  split; [by eexists|]. split; [done|].
  split; [intros Hnz; by apply c_str_nonzero|].
  rewrite Hh in He. apply history_elem in He as (i & _ & ->).
  cbn [iteration_of it_buffer it_candidate]. unfold buffer_of.
  change 114%nat with (S 113). rewrite c_str_padding.
  split; [done|].
  etransitivity; [apply length_c_str|]. by rewrite length_MD5.
Qed.

Lemma match_line_content_witness :
  0 <= 10 /\ 0 <= 3 <= SIZE_MAX /\
  exists s,
    search_md5_containing (constant_world 1 0) [241; 183] 10 3 = Finished s /\
    (Found (bytes "0000000000") (MD5 (bytes "0000000000")) ∈ out s ->
     exists e, e ∈ history s /\ is_Some (it_found e)).
Proof.
  assert (H1 : 0 <= 10) by lia.
  assert (H2 : 0 <= 3 <= SIZE_MAX) by (unfold SIZE_MAX; lia).
  split; [exact H1|]. split; [exact H2|].
  destruct (match_line_content (constant_world 1 0) [241; 183] 10 3
              (bytes "0000000000") (MD5 (bytes "0000000000")) H1 H2)
    as (s & Hs & Hline).
  exists s. split; [exact Hs|].
  intros Hin. destruct (Hline Hin) as (e & He & Hfound & _).
  exists e. split; [exact He|exact Hfound].
Defined.

Lemma list_bind_ext_in {A B} (f g : A -> list B) (l : list A) :
  (forall x, x ∈ l -> f x = g x) -> l ≫= f = l ≫= g.
Proof.
  induction l as [|x l IH]; intros Hfg; [done|].
  cbn [mbind list_bind]. fold (l ≫= f). fold (l ≫= g).
  rewrite IH, Hfg; [done|apply elem_of_cons; by left|].
  intros y Hy. apply Hfg, elem_of_cons. by right.
Qed.

(** X10.  The order of the output.  The lines appear in the order of the
    iterations [1 .. ulimit - 1]; an iteration whose index is a multiple of
    10,000,000 first prints its progress marker, and an iteration that finds
    the pattern then prints its match line; nothing else is printed. *)
Theorem output_in_iteration_order w substr str_size b :
  0 <= str_size -> 0 <= b <= SIZE_MAX ->
  exists s,
    search_md5_containing w substr str_size b = Finished s /\
    it_index <$> history s = seqZ 1 (b - 1) /\
    out s =
      history s ≫= (fun e =>
        (if it_index e mod 10000000 =? 0
         then [At (to_int (it_index e / 10000000))] else []) ++
        (match it_found e with
         | Some _ => [Found (c_str (it_candidate e))
                            (c_str (MD5 (it_candidate e)))]
         | None => []
         end)).
Proof.
  intros Hsize Hb.
  destruct (search_spec w substr str_size b) as (s & Hs & Hh & Ho & _);
    [done|done|].
  exists s. split; [done|].
  split; [by rewrite Hh, fmap_index_iterations|].
  rewrite Ho. apply list_bind_ext_in.
  intros e He. rewrite Hh in He.
  apply history_elem in He as (i & _ & ->).
  unfold lines_of, marker_line, match_line.
  cbn [iteration_of it_marker it_index it_found it_candidate it_buffer].
  unfold marker, buffer_of.
  change 114%nat with (S 113). rewrite c_str_padding.
  by destruct (i mod 10000000 =? 0).
Qed.

Lemma output_in_iteration_order_witness :
  0 <= 10 /\ 0 <= 3 <= SIZE_MAX /\
  exists s,
    search_md5_containing (constant_world 1 0) [241; 183] 10 3 = Finished s /\
    it_index <$> history s = seqZ 1 (3 - 1).
Proof.
  assert (H1 : 0 <= 10) by lia.
  assert (H2 : 0 <= 3 <= SIZE_MAX) by (unfold SIZE_MAX; lia).
  split; [exact H1|]. split; [exact H2|].
  destruct (output_in_iteration_order (constant_world 1 0) [241; 183] 10 3
              H1 H2) as (s & Hs & Hidx & _).
  exists s. split; [exact Hs|exact Hidx].
Defined.

(** X11.  The candidates follow the stream of [rand] alone: the candidate
    of iteration [i] has [str_size] characters, and its [j]-th character is
    the one selected by the call of [rand] number [(i - 1) * str_size + j];
    neither the pattern nor the bound has a part in it. *)
Theorem candidates_follow_rand_stream w substr str_size b :
  0 <= str_size -> 0 <= b <= SIZE_MAX ->
  exists s,
    search_md5_containing w substr str_size b = Finished s /\
    forall e, e ∈ history s ->
      Z.of_nat (length (it_candidate e)) = str_size /\
      forall j, (j < Z.to_nat str_size)%nat ->
        it_candidate e !! j =
          Some (charset_read w (charset_index
                  (rand_value w
                     (Z.to_nat ((it_index e - 1) * str_size) + j)))).
Proof.
  intros Hsize Hb.
  destruct (search_spec w substr str_size b) as (s & Hs & Hh & _);
    [done|done|].
  exists s. split; [done|].
  intros e He. rewrite Hh in He.
  apply history_elem in He as (i & _ & ->).
  cbn [iteration_of it_candidate it_index]. unfold candidate_of.
  split; [rewrite length_fmap, length_seq; lia|].
  intros j Hj. by rewrite list_lookup_fmap, lookup_seq_lt by done.
Qed.

Lemma candidates_follow_rand_stream_witness :
  0 <= 10 /\ 0 <= 3 <= SIZE_MAX /\
  exists s,
    search_md5_containing (constant_world 1 0) (bytes "'='") 10 3
      = Finished s /\
    forall e, e ∈ history s -> Z.of_nat (length (it_candidate e)) = 10.
Proof.
  assert (H1 : 0 <= 10) by lia.
  assert (H2 : 0 <= 3 <= SIZE_MAX) by (unfold SIZE_MAX; lia).
  split; [exact H1|]. split; [exact H2|].
  destruct (candidates_follow_rand_stream
              (constant_world 1 0) (bytes "'='") 10 3 H1 H2)
    as (s & Hs & Hall).
  exists s. split; [exact Hs|].
  intros e He. exact (proj1 (Hall e He)).
Defined.

(** ** [main] and its argument *)

Lemma to_int_range x : - 2 ^ 31 <= to_int x < 2 ^ 31.
Proof.
  unfold to_int. pose proof (Z.mod_pos_bound (x + 2 ^ 31) (2 ^ 32)). lia.
Qed.

Lemma main_ulimit_range argv : - 2 ^ 31 <= main_ulimit argv < 2 ^ 31.
Proof.
  unfold main_ulimit. destruct (1 <? Z.of_nat (length argv)).
  - apply to_int_range.
  - lia.
Qed.

(** X12.  Whatever the command line, [main] runs the search to its end,
    with a bound that is an [int] converted to [size_t]: it is below [2^31]
    or at least [2^64 - 2^31], never in between. *)
Theorem main_runs_with_an_int_bound w argv :
  (0 <= main_bound argv < 2 ^ 31 \/
   2 ^ 64 - 2 ^ 31 <= main_bound argv < 2 ^ 64) /\
  exists s,
    main w argv = Finished s /\
    it_index <$> history s = seqZ 1 (main_bound argv - 1).
Proof.
  pose proof (main_ulimit_range argv) as Hrange.
  assert (Hb : 0 <= main_bound argv < 2 ^ 31 \/
               2 ^ 64 - 2 ^ 31 <= main_bound argv < 2 ^ 64).
  { unfold main_bound, to_size_t.
    destruct (Z.lt_ge_cases (main_ulimit argv) 0).
    - right. replace (main_ulimit argv)
        with (main_ulimit argv + 2 ^ 64 + (-1) * 2 ^ 64) by lia.
      rewrite Z.mod_add by lia. rewrite Z.mod_small; lia.
    - left. rewrite Z.mod_small; lia. }
  split; [done|]. unfold main.
  destruct (search_spec w (bytes "'='") 10 (main_bound argv))
    as (s & Hs & Hh & _); [lia|unfold SIZE_MAX; lia|].
  exists s. split; [done|]. by rewrite Hh, fmap_index_iterations.
Qed.

Lemma digits_value_app ds : forall r acc,
  forallb isdigit ds = true ->
  digits_value (ds ++ r) acc
  = digits_value r (fold_left (fun a b => 10 * a + (b - 48)) ds acc).
Proof.
  induction ds as [|d ds IH]; intros r acc; [done|].
  cbn [forallb app digits_value fold_left]. intros [Hd Hds]%andb_true_iff.
  rewrite Hd. by apply IH.
Qed.

Lemma c_str_app_digits ds r :
  forallb isdigit ds = true -> c_str (ds ++ r) = ds ++ c_str r.
Proof.
  induction ds as [|d ds IH]; [done|].
  cbn [forallb app c_str]. intros [Hd Hds]%andb_true_iff.
  apply isdigit_range in Hd. destruct (Z.eqb_spec d 0); [lia|].
  by rewrite IH.
Qed.

Lemma digits_value_stops r acc :
  match r with [] => True | c :: _ => isdigit c = false end ->
  digits_value (c_str r) acc = acc.
Proof.
  destruct r as [|c r]; [done|]. intros Hc. cbn [c_str].
  destruct (c =? 0); [done|]. cbn [digits_value]. by rewrite Hc.
Qed.

(** X13.  What follows the number in the argument is ignored: an argument
    made of a valid unsigned integer below [2^31] followed by anything that
    does not start with a digit gives that integer as the bound. *)
Theorem trailing_characters_are_ignored prog arg more ds rest :
  bytes arg = ds ++ rest ->
  valid_unsigned ds = true -> decimal_value ds < 2 ^ 31 ->
  match rest with [] => True | c :: _ => isdigit c = false end ->
  main_bound (prog :: arg :: more) = decimal_value ds.
Proof.
  intros Harg Hvalid Hsmall Hrest.
  rewrite main_bound_argument, Harg.
  assert (Hdigits : forallb isdigit ds = true).
  { unfold valid_unsigned in Hvalid. by destruct ds. }
  assert (Hpos : 0 <= decimal_value ds).
  { unfold decimal_value. by apply fold_digits_nonneg. }
  assert (Hstr : strtoul (ds ++ rest) = decimal_value ds).
  { unfold strtoul. rewrite c_str_app_digits by done.
    destruct ds as [|d ds]; [done|].
    pose proof Hdigits as [Hd _]%andb_true_iff.
    cbn [app skip_spaces]. rewrite (isdigit_not_space _ Hd).
    apply isdigit_range in Hd.
    destruct (Z.eqb_spec d 45); [lia|]. destruct (Z.eqb_spec d 43); [lia|].
    cbv zeta.
    change (d :: ds ++ c_str rest) with ((d :: ds) ++ c_str rest).
    rewrite digits_value_app, digits_value_stops by done.
    fold (decimal_value (d :: ds)).
    destruct (Z.ltb_spec SIZE_MAX (decimal_value (d :: ds)));
      [unfold SIZE_MAX in *; lia|done]. }
  rewrite Hstr, to_int_small by lia.
  apply to_size_t_small. unfold SIZE_MAX. lia.
Qed.

Lemma trailing_characters_are_ignored_witness :
  bytes "12abc" = bytes "12" ++ bytes "abc" /\
  valid_unsigned (bytes "12") = true /\ decimal_value (bytes "12") < 2 ^ 31 /\
  main_bound ["md5_checker"%string; "12abc"%string]
    = decimal_value (bytes "12").
Proof.
  assert (H1 : bytes "12abc" = bytes "12" ++ bytes "abc") by reflexivity.
  assert (H2 : valid_unsigned (bytes "12") = true) by reflexivity.
  assert (H3 : decimal_value (bytes "12") < 2 ^ 31) by reflexivity.
  assert (H4 : match bytes "abc" with
               | [] => True | c :: _ => isdigit c = false end)
    by reflexivity.
  split; [exact H1|]. split; [exact H2|]. split; [exact H3|].
  exact (trailing_characters_are_ignored "md5_checker" "12abc" []
           (bytes "12") (bytes "abc") H1 H2 H3 H4).
Defined.

(** X14.  A negative argument turns into a huge bound: for a number [v]
    with [1 <= v <= 2^31], the argument [-v] gives the bound [2^64 - v]. *)
Theorem negative_argument_gives_huge_bound prog arg more ds :
  bytes arg = 45 :: ds ->
  valid_unsigned ds = true -> 1 <= decimal_value ds <= 2 ^ 31 ->
  main_bound (prog :: arg :: more) = 2 ^ 64 - decimal_value ds.
Proof.
  intros Harg Hvalid Hv.
  rewrite main_bound_argument, Harg.
  assert (Hdigits : forallb isdigit ds = true).
  { unfold valid_unsigned in Hvalid. by destruct ds. }
  assert (Hstr : strtoul (45 :: ds) = to_size_t (- decimal_value ds)).
  { unfold strtoul. cbn [c_str Z.eqb]. rewrite c_str_digits by done.
    cbn [skip_spaces]. change (isspace 45) with false. cbn [Z.eqb Pos.eqb].
    cbv zeta. rewrite digits_value_digits by done.
    fold (decimal_value ds).
    destruct (Z.ltb_spec SIZE_MAX (decimal_value ds));
      [unfold SIZE_MAX in *; lia|done]. }
  rewrite Hstr. unfold to_size_t, to_int.
  set (v := decimal_value ds) in *.
  assert (H1 : (- v) mod 2 ^ 64 = 2 ^ 64 - v).
  { replace (- v) with (2 ^ 64 - v + (-1) * 2 ^ 64) by lia.
    rewrite Z.mod_add by lia. apply Z.mod_small. lia. }
  rewrite H1.
  assert (H2 : (2 ^ 64 - v + 2 ^ 31) mod 2 ^ 32 = 2 ^ 31 - v).
  { replace (2 ^ 64 - v + 2 ^ 31) with (2 ^ 31 - v + 2 ^ 32 * 2 ^ 32) by lia.
    rewrite Z.mod_add by lia. apply Z.mod_small. lia. }
  rewrite H2. replace (2 ^ 31 - v - 2 ^ 31) with (- v) by lia.
  exact H1.
Qed.

Lemma negative_argument_gives_huge_bound_witness :
  bytes "-1" = 45 :: bytes "1" /\
  valid_unsigned (bytes "1") = true /\
  1 <= decimal_value (bytes "1") <= 2 ^ 31 /\
  main_bound ["md5_checker"%string; "-1"%string]
    = 2 ^ 64 - decimal_value (bytes "1").
Proof.
  assert (H1 : bytes "-1" = 45 :: bytes "1") by reflexivity.
  assert (H2 : valid_unsigned (bytes "1") = true) by reflexivity.
  assert (H3 : 1 <= decimal_value (bytes "1") <= 2 ^ 31)
    by (vm_compute; split; discriminate).
  split; [exact H1|]. split; [exact H2|]. split; [exact H3|].
  exact (negative_argument_gives_huge_bound "md5_checker" "-1" []
           (bytes "1") H1 H2 H3).
Defined.

(** ** [print_integral_string] *)

Lemma decimal_digits_S fuel n acc :
  decimal_digits (S fuel) n acc =
    if n <? 10 then (48 + n mod 10) :: acc
    else decimal_digits fuel (n / 10) ((48 + n mod 10) :: acc).
Proof. reflexivity. Qed.

Lemma decimal_digits_spec fuel : forall n acc,
  0 <= n < 10 ^ Z.of_nat (S fuel) ->
  exists ds,
    decimal_digits (S fuel) n acc = ds ++ acc /\
    forallb isdigit ds = true /\
    forall a, fold_left (fun a b => 10 * a + (b - 48)) ds a
              = a * 10 ^ Z.of_nat (length ds) + n.
Proof.
  induction fuel as [|fuel IH]; intros n acc Hn.
  - change (10 ^ Z.of_nat 1) with 10 in Hn.
    exists [48 + n mod 10]. rewrite decimal_digits_S.
    destruct (Z.ltb_spec n 10); [|lia].
    rewrite Z.mod_small by lia.
    split; [done|]. split.
    + unfold isdigit. cbn [forallb]. lia.
    + intros a. cbn [fold_left length]. change (10 ^ Z.of_nat 1) with 10. lia.
  - rewrite decimal_digits_S.
    destruct (Z.ltb_spec n 10) as [Hsmall|Hlarge].
    + exists [48 + n mod 10]. rewrite Z.mod_small by lia.
      split; [done|]. split.
      * unfold isdigit. cbn [forallb]. lia.
      * intros a. cbn [fold_left length].
        change (10 ^ Z.of_nat 1) with 10. lia.
    + destruct (IH (n / 10) ((48 + n mod 10) :: acc)) as (ds & Hds & Hdig & Hval).
      { rewrite (Nat2Z.inj_succ (S fuel)), Z.pow_succ_r in Hn by lia.
        Z.div_mod_to_equations. lia. }
      exists (ds ++ [48 + n mod 10]).
      split; [by rewrite Hds, <- app_assoc|].
      pose proof (Z.mod_pos_bound n 10 ltac:(lia)) as Hmod.
      split.
      * rewrite forallb_app, Hdig. unfold isdigit. cbn [forallb]. lia.
      * intros a. rewrite fold_left_app, Hval. cbn [fold_left].
        rewrite length_app, Nat2Z.inj_add. cbn [length].
        rewrite Z.pow_add_r by lia. change (10 ^ Z.of_nat 1) with 10.
        pose proof (Z.div_mod n 10 ltac:(lia)). nia.
Qed.

Lemma read_numbers_digits ds : forall r acc,
  forallb isdigit ds = true ->
  read_numbers (ds ++ r) acc
  = read_numbers r (fold_left (fun a b => 10 * a + (b - 48)) ds acc).
Proof.
  induction ds as [|d ds IH]; intros r acc; [done|].
  cbn [forallb app read_numbers fold_left]. intros [Hd Hds]%andb_true_iff.
  rewrite Hd. by apply IH.
Qed.

(** A number of 64 bits, printed and followed by a space, is read back. *)
Lemma read_print_unsigned v r :
  0 <= v <= SIZE_MAX ->
  read_numbers (print_unsigned v ++ 32 :: r) 0 = v :: read_numbers r 0.
Proof.
  intros Hv. unfold print_unsigned.
  destruct (decimal_digits_spec 19 v []) as (ds & -> & Hdig & Hval).
  { unfold SIZE_MAX in Hv. split; [lia|].
    eapply Z.le_lt_trans; [apply Hv|]. reflexivity. }
  rewrite app_nil_r, read_numbers_digits, Hval by done.
  cbn [read_numbers]. change (isdigit 32) with false. cbn [Z.eqb Pos.eqb].
  f_equal; lia.
Qed.

Lemma read_printed_elements (l : list Z) r :
  match r with [] => True | c :: _ => isdigit c = false /\ c <> 32 end ->
  read_numbers ((l ≫= fun elem => print_unsigned (to_size_t elem) ++ [32])
                  ++ r) 0
  = to_size_t <$> l.
Proof.
  intros Hr. induction l as [|x l IH].
  - cbn [mbind list_bind app fmap list_fmap].
    destruct r as [|c r]; [done|]. destruct Hr as [Hd Hs].
    cbn [read_numbers]. rewrite Hd. by destruct (Z.eqb_spec c 32).
  - cbn [mbind list_bind fmap list_fmap].
    fold (l ≫= fun elem => print_unsigned (to_size_t elem) ++ [32]).
    fold (to_size_t <$> l).
    rewrite <- !app_assoc. cbn [app].
    rewrite read_print_unsigned, IH; [done|].
    unfold to_size_t, SIZE_MAX.
    pose proof (Z.mod_pos_bound x (2 ^ 64)). lia.
Qed.

(** X15.  [print_integral_string] loses nothing but the width of the
    elements: the text between the quotes, read back number by number, is
    the string with every element converted to [unsigned long long]; so two
    calls that print the same text were given strings with the same
    converted elements and the same [newline].  The text always starts with
    a double quote, and for the empty string it is two double quotes. *)
Theorem print_integral_string_reads_back str newline :
  read_numbers (tail (print_integral_string str newline)) 0
    = to_size_t <$> str /\
  head (print_integral_string str newline) = Some 34 /\
  (str = [] -> print_integral_string str false = [34; 34]) /\
  (Forall (fun e => 0 <= e < 256) str ->
   read_numbers (tail (print_integral_string str newline)) 0 = str) /\
  forall str' newline',
    print_integral_string str newline = print_integral_string str' newline' ->
    to_size_t <$> str = to_size_t <$> str' /\ newline = newline'.
Proof.
  assert (Hread : forall s nl,
    read_numbers (tail (print_integral_string s nl)) 0 = to_size_t <$> s).
  { intros s nl. unfold print_integral_string. cbn [app tail].
    apply read_printed_elements. cbn. split; [reflexivity|lia]. }
  split; [apply Hread|]. split; [reflexivity|].
  split; [by intros ->|]. split.
  - intros Hbytes. rewrite Hread.
    induction Hbytes as [|e l He _ IH]; [done|].
    cbn [fmap list_fmap]. fold (to_size_t <$> l). rewrite IH.
    f_equal. unfold to_size_t. apply Z.mod_small. lia.
  - intros str' newline' Heq.
    assert (Hmap : to_size_t <$> str = to_size_t <$> str')
      by (by rewrite <- (Hread str newline), Heq, Hread).
    split; [done|].
    unfold print_integral_string in Heq. cbn [app] in Heq.
    injection Heq as Heq.
    assert (Hbody : forall s : list Z,
      s ≫= (fun elem => print_unsigned (to_size_t elem) ++ [32])
      = (to_size_t <$> s) ≫= (fun v => print_unsigned v ++ [32])).
    { intros s. by rewrite list_fmap_bind. }
    rewrite (Hbody str), (Hbody str'), Hmap in Heq.
    apply app_inv_head in Heq.
    by destruct newline, newline'.
Qed.

Example print_integral_string_example :
  print_integral_string [1; 20; 255] true
  = [34] ++ bytes "1 20 255 " ++ [34; 10].
Proof. reflexivity. Qed.

Lemma generate_string_in_charset_witness :
  generate_string (scripted_world [2; 37; 35] 0) [] 0 3
    = Some (bytes "10z", 3%nat) /\
  Forall (fun x => In x charset_characters) (bytes "10z").
Proof.
  assert (H1 : generate_string (scripted_world [2; 37; 35] 0) [] 0 3
               = Some (bytes "10z", 3%nat)) by reflexivity.
  assert (H2 : forall j, (0 <= j < 0 + Z.to_nat 3)%nat ->
            to_size_t (rand_value (scripted_world [2; 37; 35] 0) j)
              mod sizeof_charset <> 0).
  { intros j Hj. destruct j as [|[|[|j]]]; [discriminate..|]. simpl in Hj. lia. }
  split; [exact H1|].
  exact (generate_string_in_charset _ _ _ _ _ _ H1 H2).
Defined.
